(** * Salesforce MCP server: the tool adapter of [src/main.py]

    The adapter binds eight named tools to one [SalesforceClient] object
    that is created lazily and kept in the module global [sf_client].  The
    client class itself lives in [client.py]; here it is an interface (a
    type class) whose methods act on an abstract outside world: the remote
    CRM, the HTTP session and the process environment.

    Python code is embedded as computations in a state-and-exception
    monad: a computation takes the interpreter state and gives back an
    outcome (a value or a raised exception) together with the new state.
    State changes made before an exception is raised persist, as they do
    in Python. *)

From stdpp Require Import base option list strings pretty gmap fin_maps relations.
From Stdlib Require Import ZArith.

Open Scope Z_scope.
Open Scope string_scope.
Open Scope list_scope.

(** ** Python values *)

Set Warnings "-register-all".

(** The values that cross the adapter boundary: [None], booleans, ints,
    strings, lists and string-keyed dicts (parsed JSON). *)
Inductive PyVal : Type :=
  | PNone
  | PBool (b : bool)
  | PInt (z : Z)
  | PStr (s : string)
  | PList (l : list PyVal)
  | PDict (d : gmap string PyVal).

(** [dict[str, Any]]: an account, contact or opportunity record, or a
    create/update payload. *)
Abbreviation record := (gmap string PyVal).

(** A raised exception.  [exn_is_Exception] tells whether its class derives
    from [Exception] (what [except Exception] catches) or only from
    [BaseException] ([KeyboardInterrupt], [SystemExit], ...).  [exn_str] is
    what [str(e)] and an f-string print. *)
Record PyExn : Type := mkExn {
  exn_class : string;
  exn_str : string;
  exn_is_Exception : bool
}.

Inductive Outcome (A : Type) : Type :=
  | Ok (a : A)
  | Raise (e : PyExn).
Arguments Ok {A} a.
Arguments Raise {A} e.

(** An argument with a default in the [def] line: the caller leaves it out
    or passes a value. *)
Inductive Arg (A : Type) : Type :=
  | Omitted
  | Given (a : A).
Arguments Omitted {A}.
Arguments Given {A} a.

Definition or_default {A} (d : A) (a : Arg A) : A :=
  match a with Omitted => d | Given x => x end.

(** ** What the adapter says to its collaborators *)

(** One method call on the client, with the arguments as the callee binds
    them. *)
Inductive Method : Type :=
  | MGetAccounts (limit : Z) (fields : option (list string))
  | MGetAccountById (account_id : string) (fields : option (list string))
  | MSearchAccounts (search_term : string) (limit : Z)
  | MCreateAccount (account_data : record)
  | MUpdateAccount (account_id : string) (account_data : record)
  | MDeleteAccount (account_id : string)
  | MGetAccountOpportunities (account_id : string) (limit : Z)
  | MGetAccountContacts (account_id : string) (limit : Z).

(** The collaborators of [main.py].  [World] is everything outside the
    module: remote CRM, session, environment variables.  [Client] is the
    identity of a [SalesforceClient] object; its mutable state is part of
    the world. *)
Class Collaborators : Type := {
  World : Type;
  Client : Type;
  (** [SalesforceClient(auto_auth=...)] *)
  SalesforceClient : bool → World → Outcome Client * World;
  client_get_accounts :
    Client → Z → option (list string) → World → Outcome PyVal * World;
  client_get_account_by_id :
    Client → string → option (list string) → World → Outcome PyVal * World;
  client_search_accounts :
    Client → string → Z → World → Outcome PyVal * World;
  client_create_account :
    Client → record → World → Outcome PyVal * World;
  client_update_account :
    Client → string → record → World → Outcome PyVal * World;
  client_delete_account :
    Client → string → World → Outcome PyVal * World;
  client_get_account_opportunities :
    Client → string → Z → World → Outcome PyVal * World;
  client_get_account_contacts :
    Client → string → Z → World → Outcome PyVal * World;
  (** [server.serve(transport=..., verbose=..., log_level=...)] *)
  server_serve : string → bool → string → World → Outcome PyVal * World
}.

Section Adapter.
Context `{Collaborators}.

(** The observable interactions, in program order. *)
Inductive Event : Type :=
  | EvConstruct (auto_auth : bool)
  | EvCall (c : Client) (m : Method)
  | EvPrint (line : string)
  | EvServe (transport : string) (verbose : bool) (log_level : string).

(** Interpreter state: the module global [sf_client] ([None] is Python's
    [None]), the outside world and the log of interactions so far. *)
Record State : Type := mkState {
  sf_client : option Client;
  world : World;
  trace : list Event
}.

Definition M (A : Type) : Type := State → Outcome A * State.

Definition ret {A} (a : A) : M A := λ s, (Ok a, s).

Definition bind {A B} (m : M A) (k : A → M B) : M B :=
  λ s, match m s with
       | (Ok a, s') => k a s'
       | (Raise e, s') => (Raise e, s')
       end.

Definition raise {A} (e : PyExn) : M A := λ s, (Raise e, s).

(** [try: body  except Exception as e: handler(e)] *)
Definition try_except_Exception {A} (body : M A) (handler : PyExn → M A) : M A :=
  λ s, match body s with
       | (Ok a, s') => (Ok a, s')
       | (Raise e, s') =>
           if exn_is_Exception e then handler e s' else (Raise e, s')
       end.

(** Sequencing, written as in stdpp's monad notation. *)
Declare Scope py_scope.
Notation "x ← y ; z" := (bind y (λ x, z))
  (at level 20, y at level 100, z at level 200, only parsing) : py_scope.
Notation "y ;; z" := (bind y (λ _, z))
  (at level 100, z at level 200, only parsing, right associativity) : py_scope.
Local Open Scope py_scope.

(** *** Primitive effects *)

Definition get_sf_client : M (option Client) := λ s, (Ok (sf_client s), s).

Definition set_sf_client (v : option Client) : M unit :=
  λ s, (Ok tt, mkState v (world s) (trace s)).

(** Run an operation of a collaborator on the world and log it. *)
Definition external {A} (ev : Event) (op : World → Outcome A * World) : M A :=
  λ s, let '(r, w) := op (world s) in
       (r, mkState (sf_client s) w (trace s ++ [ev])).

(** [SalesforceClient(auto_auth=auto_auth)] *)
Definition new_SalesforceClient (auto_auth : bool) : M Client :=
  external (EvConstruct auto_auth) (SalesforceClient auto_auth).

(** The client method that a [Method] message names. *)
Definition method_impl (c : Client) (m : Method) : World → Outcome PyVal * World :=
  match m with
  | MGetAccounts limit fields => client_get_accounts c limit fields
  | MGetAccountById account_id fields => client_get_account_by_id c account_id fields
  | MSearchAccounts search_term limit => client_search_accounts c search_term limit
  | MCreateAccount account_data => client_create_account c account_data
  | MUpdateAccount account_id account_data =>
      client_update_account c account_id account_data
  | MDeleteAccount account_id => client_delete_account c account_id
  | MGetAccountOpportunities account_id limit =>
      client_get_account_opportunities c account_id limit
  | MGetAccountContacts account_id limit =>
      client_get_account_contacts c account_id limit
  end.

(** [client.m(...)] *)
Definition call (c : Client) (m : Method) : M PyVal :=
  external (EvCall c m) (method_impl c m).

Definition print (line : string) : M unit :=
  λ s, (Ok tt, mkState (sf_client s) (world s) (trace s ++ [EvPrint line])).

(** [await server.serve(transport=..., verbose=..., log_level=...)] *)
Definition serve (transport : string) (verbose : bool) (log_level : string) : M PyVal :=
  external (EvServe transport verbose log_level)
           (server_serve transport verbose log_level).

(** ** [main.py] *)

(** [def get_client()]: get or create the Salesforce client instance. *)
Definition get_client : M Client :=
  cur ← get_sf_client;
  match cur with
  | None =>
      c ← new_SalesforceClient true;
      set_sf_client (Some c) ;;
      ret c
  | Some c => ret c
  end.

(** [def get_accounts(limit: int = 10, fields: list[str] | None = None)] *)
Definition get_accounts (limit : Arg Z) (fields : Arg (option (list string))) : M PyVal :=
  let limit := or_default 10 limit in
  let fields := or_default None fields in
  client ← get_client;
  call client (MGetAccounts limit fields).

(** [def get_account_by_id(account_id: str, fields: list[str] | None = None)] *)
Definition get_account_by_id (account_id : string)
    (fields : Arg (option (list string))) : M PyVal :=
  let fields := or_default None fields in
  client ← get_client;
  call client (MGetAccountById account_id fields).

(** [def search_accounts(search_term: str, limit: int = 10)] *)
Definition search_accounts (search_term : string) (limit : Arg Z) : M PyVal :=
  let limit := or_default 10 limit in
  client ← get_client;
  call client (MSearchAccounts search_term limit).

(** [def create_account(account_data: dict[str, Any])] *)
Definition create_account (account_data : record) : M PyVal :=
  client ← get_client;
  call client (MCreateAccount account_data).

(** [def update_account(account_id: str, account_data: dict[str, Any])] *)
Definition update_account (account_id : string) (account_data : record) : M PyVal :=
  client ← get_client;
  call client (MUpdateAccount account_id account_data) ;;
  ret (PBool true).

(** [def delete_account(account_id: str)] *)
Definition delete_account (account_id : string) : M PyVal :=
  client ← get_client;
  call client (MDeleteAccount account_id) ;;
  ret (PBool true).

(** [def get_account_opportunities(account_id: str, limit: int = 10)] *)
Definition get_account_opportunities (account_id : string) (limit : Arg Z) : M PyVal :=
  let limit := or_default 10 limit in
  client ← get_client;
  call client (MGetAccountOpportunities account_id limit).

(** [def get_account_contacts(account_id: str, limit: int = 10)] *)
Definition get_account_contacts (account_id : string) (limit : Arg Z) : M PyVal :=
  let limit := or_default 10 limit in
  client ← get_client;
  call client (MGetAccountContacts account_id limit).

(** [async def main()]: start the MCP server on streamable-http transport. *)
Definition main : M unit :=
  print "🚀 Starting Salesforce MCP Server..." ;;
  print "📡 Transport: streamable-http" ;;
  print "🔧 Available tools: get_accounts, get_account_by_id, search_accounts, create_account," ;;
  print "                   update_account, delete_account, get_account_opportunities, get_account_contacts" ;;
  print EmptyString ;;
  try_except_Exception
    (get_client ;;
     print "✅ Salesforce client initialized successfully")
    (λ e,
     print ("⚠️  Warning: Failed to initialize Salesforce client: " +:+ exn_str e) ;;
     print "   Server will start but tools may fail until client is configured properly") ;;
  print EmptyString ;;
  serve "streamable-http" false "critical" ;;
  ret tt.

(** *** The tool registry *)

(** A tool invocation as it reaches the registry built by
    [with server.binding()]: the tool's name and the arguments the caller
    supplied. *)
Inductive ToolCall : Type :=
  | TGetAccounts (limit : Arg Z) (fields : Arg (option (list string)))
  | TGetAccountById (account_id : string) (fields : Arg (option (list string)))
  | TSearchAccounts (search_term : string) (limit : Arg Z)
  | TCreateAccount (account_data : record)
  | TUpdateAccount (account_id : string) (account_data : record)
  | TDeleteAccount (account_id : string)
  | TGetAccountOpportunities (account_id : string) (limit : Arg Z)
  | TGetAccountContacts (account_id : string) (limit : Arg Z).

(** The registry resolves the name and runs the bound function. *)
Definition invoke (t : ToolCall) : M PyVal :=
  match t with
  | TGetAccounts limit fields => get_accounts limit fields
  | TGetAccountById account_id fields => get_account_by_id account_id fields
  | TSearchAccounts search_term limit => search_accounts search_term limit
  | TCreateAccount account_data => create_account account_data
  | TUpdateAccount account_id account_data => update_account account_id account_data
  | TDeleteAccount account_id => delete_account account_id
  | TGetAccountOpportunities account_id limit =>
      get_account_opportunities account_id limit
  | TGetAccountContacts account_id limit => get_account_contacts account_id limit
  end.

(** What can happen to the process once the module is loaded: a tool is
    invoked, something calls [get_client], [main] runs, or the outside
    world changes on its own (records edited by others, the environment
    reconfigured). *)
Inductive step : State → State → Prop :=
  | step_invoke (t : ToolCall) (s : State) : step s (invoke t s).2
  | step_get_client (s : State) : step s (get_client s).2
  | step_main (s : State) : step s (main s).2
  | step_world (s : State) (w : World) :
      step s (mkState (sf_client s) w (trace s)).

(** ** Vocabulary of the specification *)

(** The client method a tool stands for, applied to the tool's arguments
    (defaults filled in as the [def] line says). *)
Definition client_method_of (t : ToolCall) : Method :=
  match t with
  | TGetAccounts limit fields =>
      MGetAccounts (or_default 10 limit) (or_default None fields)
  | TGetAccountById account_id fields =>
      MGetAccountById account_id (or_default None fields)
  | TSearchAccounts search_term limit =>
      MSearchAccounts search_term (or_default 10 limit)
  | TCreateAccount account_data => MCreateAccount account_data
  | TUpdateAccount account_id account_data => MUpdateAccount account_id account_data
  | TDeleteAccount account_id => MDeleteAccount account_id
  | TGetAccountOpportunities account_id limit =>
      MGetAccountOpportunities account_id (or_default 10 limit)
  | TGetAccountContacts account_id limit =>
      MGetAccountContacts account_id (or_default 10 limit)
  end.

(** The six tools whose result is the client's result. *)
Definition passes_result_through (t : ToolCall) : bool :=
  match t with
  | TUpdateAccount _ _ | TDeleteAccount _ => false
  | _ => true
  end.

(** The client fails while tool call [t] runs from [s]: either creating the
    client raises [e], or the client exists and its method raises [e].
    [s'] is the state this leaves behind. *)
Inductive client_raises (t : ToolCall) (s : State) (e : PyExn) (s' : State) : Prop :=
  | raises_in_constructor :
      get_client s = (Raise e, s') →
      client_raises t s e s'
  | raises_in_method (c : Client) (s1 : State) (w : World) :
      get_client s = (Ok c, s1) →
      method_impl c (client_method_of t) (world s1) = (Raise e, w) →
      s' = mkState (Some c) w (trace s1 ++ [EvCall c (client_method_of t)]) →
      client_raises t s e s'.

Definition is_construct (ev : Event) : bool :=
  match ev with EvConstruct _ => true | _ => false end.

(** How many times [SalesforceClient(...)] has been called. *)
Definition constructions (tr : list Event) : nat :=
  length (List.filter is_construct tr).

(** What [main] prints before it touches the client. *)
Definition startup_banner : list Event :=
  [ EvPrint "🚀 Starting Salesforce MCP Server...";
    EvPrint "📡 Transport: streamable-http";
    EvPrint "🔧 Available tools: get_accounts, get_account_by_id, search_accounts, create_account,";
    EvPrint "                   update_account, delete_account, get_account_opportunities, get_account_contacts";
    EvPrint EmptyString ].

(** The two warning lines about a client that could not be created. *)
Definition warning_lines (e : PyExn) : list Event :=
  [ EvPrint ("⚠️  Warning: Failed to initialize Salesforce client: " +:+ exn_str e);
    EvPrint "   Server will start but tools may fail until client is configured properly" ].

(** The server is started from state [s]: the outcome of [main] from the
    call of [server.serve] on. *)
Definition serving (s : State) : Outcome unit * State :=
  let '(r, w) := server_serve "streamable-http" false "critical" (world s) in
  (match r with Ok _ => Ok tt | Raise e => Raise e end,
   mkState (sf_client s) w (trace s ++ [EvServe "streamable-http" false "critical"])).

(** The state after a sequence of tool invocations, one after the other,
    whatever their outcomes. *)
Definition run_calls (ts : list ToolCall) (s : State) : State :=
  foldl (λ s t, (invoke t s).2) s ts.

(** The world after client [c] has run, one after the other, the methods
    that the tool invocations [ts] stand for. *)
Definition world_after (c : Client) (ts : list ToolCall) (w : World) : World :=
  foldl (λ w t, (method_impl c (client_method_of t) w).2) w ts.

(** What [main] has done when it reaches [get_client]. *)
Definition after_banner (s : State) : State :=
  mkState (sf_client s) (world s) (trace s ++ startup_banner).

(** The state right after the module is loaded, in world [w]. *)
Definition initial (w : World) : State := mkState None w [].

End Adapter.

(** ** A scripted client, for running the adapter on concrete inputs

    The world is a script of canned outcomes; every operation of a
    collaborator consumes the next one (a test double in the style of
    [unittest.mock] with [side_effect]). *)
Module Scripted.

Definition exhausted : PyExn := mkExn "StopIteration" EmptyString true.

Definition next {A} (conv : PyVal → A) (w : list (Outcome PyVal))
    : Outcome A * list (Outcome PyVal) :=
  match w with
  | [] => (Raise exhausted, [])
  | Ok v :: w' => (Ok (conv v), w')
  | Raise e :: w' => (Raise e, w')
  end.

#[export] Instance collaborators : Collaborators := {|
  World := list (Outcome PyVal);
  Client := unit;
  SalesforceClient := λ _, next (λ _, tt);
  client_get_accounts := λ _ _ _, next id;
  client_get_account_by_id := λ _ _ _, next id;
  client_search_accounts := λ _ _ _, next id;
  client_create_account := λ _ _, next id;
  client_update_account := λ _ _ _, next id;
  client_delete_account := λ _ _, next id;
  client_get_account_opportunities := λ _ _ _, next id;
  client_get_account_contacts := λ _ _ _, next id;
  server_serve := λ _ _ _, next id
|}.

(** The freshly loaded module in front of a given script. *)
Definition start (script : list (Outcome PyVal)) : State :=
  @initial collaborators script.

(** The one client object of the scripted world. *)
Definition the_client : @Client collaborators := tt.

Definition state (c : option (@Client collaborators)) (script : list (Outcome PyVal))
    (tr : list (@Event collaborators)) : State :=
  @mkState collaborators c script tr.

Definition ValueError (msg : string) : PyExn := mkExn "ValueError" msg true.
Definition KeyboardInterrupt : PyExn := mkExn "KeyboardInterrupt" EmptyString false.

End Scripted.

(** ** The client and the remote CRM, after the specification *)

Module Crm.

(** Python's [term in text]: [term] occurs somewhere in [text]. *)
Fixpoint contains (term text : string) : bool :=
  String.prefix term text ||
  match text with
  | EmptyString => false
  | String _ rest => contains term rest
  end.

(** Modelled from the spec: what the remote search, missing from the
    sources, takes for a hit: "containing [term] in a matched field", that
    is, some text field of the record contains the term. *)
Definition matches (term : string) (r : record) : bool :=
  existsb (λ kv, match kv.2 with PStr text => contains term text | _ => false end)
          (map_to_list r).

(** Modelled from the spec: the handling of the "optional field-name
    lists" by the client, missing from the sources: the record cut down to
    the requested fields, all of it when no list is given. *)
Definition project (fields : option (list string)) (r : record) : record :=
  match fields with
  | None => r
  | Some fs => filter (λ kv, kv.1 ∈ fs) r
  end.

(** Modelled from the spec: the link from a related record (contact,
    opportunity) to its account, kept in the remote CRM and missing from
    the sources. *)
Definition belongs_to (account_id : string) (r : record) : bool :=
  match r !! "AccountId" with
  | Some (PStr a) => String.eqb a account_id
  | _ => false
  end.

(** Modelled from the spec: the outside world of the adapter, which is the
    remote CRM ("all state lives in the remote CRM": key-value records
    whose [Id] is a stable opaque identifier string), the credentials in
    the environment, and the client's authenticated session.  The class
    [SalesforceClient] of [client.py] and the remote service are missing
    from the sources. *)
Record Remote : Type := mkRemote {
  credentials : bool;
  authenticated : bool;
  accounts : gmap string record;
  opportunities : list record;
  contacts : list record
}.

(** Modelled from the spec: the failures of the client, missing from the
    sources: "auth failure, [...] remote validation error", and a lookup
    that finds nothing. *)
Definition AuthError : PyExn :=
  mkExn "ValueError" "Salesforce credentials not configured" true.
Definition SessionError : PyExn :=
  mkExn "SalesforceError" "INVALID_SESSION_ID" true.
Definition NotFound : PyExn :=
  mkExn "SalesforceError" "NOT_FOUND" true.
Definition ValidationError : PyExn :=
  mkExn "SalesforceError" "REQUIRED_FIELD_MISSING or INVALID_FIELD" true.

(** Modelled from the spec: the operations of [SalesforceClient], missing
    from the sources: "list/search/get/create/update/delete operations
    [...] each performing one authenticated HTTP call and returning parsed
    JSON or raising on failure". *)
Definition authenticated_call {A} (op : Remote → Outcome A * Remote) (w : Remote)
    : Outcome A * Remote :=
  if authenticated w then op w else (Raise SessionError, w).

(** Modelled from the spec: the constructor of [SalesforceClient], missing
    from the sources: "missing credentials cause initialization to fail
    with a clear, reportable error rather than a silent no-op"; otherwise
    the client holds an authenticated session. *)
Definition init (auto_auth : bool) (w : Remote) : Outcome unit * Remote :=
  if auto_auth then
    if credentials w
    then (Ok tt, mkRemote true true (accounts w) (opportunities w) (contacts w))
    else (Raise AuthError, w)
  else (Ok tt, w).

(** Modelled from the spec: [SalesforceClient.get_accounts], missing from
    the sources: a list of at most [limit] account records. *)
Definition list_accounts (limit : Z) (fields : option (list string))
    : Remote → Outcome PyVal * Remote :=
  authenticated_call (λ w,
    (Ok (PList (PDict ∘ project fields <$>
                take (Z.to_nat limit) (map_to_list (accounts w)).*2)), w)).

(** Modelled from the spec: [SalesforceClient.get_account_by_id], missing
    from the sources: the record with that [Id], or a failure. *)
Definition get_by_id (account_id : string) (fields : option (list string))
    : Remote → Outcome PyVal * Remote :=
  authenticated_call (λ w,
    match accounts w !! account_id with
    | Some r => (Ok (PDict (project fields r)), w)
    | None => (Raise NotFound, w)
    end).

(** Modelled from the spec: [SalesforceClient.search_accounts], missing
    from the sources: "at most [limit] records, each containing [term] in a
    matched field". *)
Definition search (term : string) (limit : Z) : Remote → Outcome PyVal * Remote :=
  authenticated_call (λ w,
    (Ok (PList (PDict <$>
                take (Z.to_nat limit)
                     (List.filter (matches term) (map_to_list (accounts w)).*2))), w)).

(** Modelled from the spec: the remote validation of a create payload,
    missing from the sources: it names the record ("Name is commonly
    required on create") and does not choose its own [Id]. *)
Definition creatable (data : record) : bool :=
  bool_decide (is_Some (data !! "Name")) && bool_decide (data !! "Id" = None).

(** Modelled from the spec: [SalesforceClient.create_account], missing
    from the sources: stores the submitted fields under a new identifier
    and returns the identifier ("Name is commonly required on create"). *)
Definition create (data : record) : Remote → Outcome PyVal * Remote :=
  authenticated_call (λ w,
    if creatable data then
      let new_id : string := fresh (dom (accounts w)) in
      (Ok (PStr new_id),
       mkRemote (credentials w) (authenticated w)
                (<[new_id := <["Id" := PStr new_id]> data]> (accounts w))
                (opportunities w) (contacts w))
    else (Raise ValidationError, w)).

(** Modelled from the spec: [SalesforceClient.update_account], missing
    from the sources: the submitted fields replace the stored ones. *)
Definition update (account_id : string) (data : record)
    : Remote → Outcome PyVal * Remote :=
  authenticated_call (λ w,
    match accounts w !! account_id with
    | Some r =>
        if bool_decide (data !! "Id" = None) then
          (Ok PNone,
           mkRemote (credentials w) (authenticated w)
                    (<[account_id := data ∪ r]> (accounts w))
                    (opportunities w) (contacts w))
        else (Raise ValidationError, w)
    | None => (Raise NotFound, w)
    end).

(** Modelled from the spec: [SalesforceClient.delete_account], missing
    from the sources: removes the record with that [Id]. *)
Definition remove (account_id : string) : Remote → Outcome PyVal * Remote :=
  authenticated_call (λ w,
    match accounts w !! account_id with
    | Some _ =>
        (Ok PNone,
         mkRemote (credentials w) (authenticated w)
                  (delete account_id (accounts w))
                  (opportunities w) (contacts w))
    | None => (Raise NotFound, w)
    end).

(** Modelled from the spec: [SalesforceClient.get_account_opportunities]
    and [get_account_contacts], missing from the sources: at most [limit]
    related records of the account. *)
Definition related (table : Remote → list record) (account_id : string) (limit : Z)
    : Remote → Outcome PyVal * Remote :=
  authenticated_call (λ w,
    (Ok (PList (PDict <$>
                take (Z.to_nat limit)
                     (List.filter (belongs_to account_id) (table w)))), w)).

(** Modelled from the spec: the hosting protocol server, missing from the
    sources; serving is outside the adapter and returns when it is shut
    down. *)
Definition serve_forever (transport : string) (verbose : bool) (log_level : string)
    (w : Remote) : Outcome PyVal * Remote := (Ok PNone, w).

#[export] Instance collaborators : Collaborators := {|
  World := Remote;
  Client := unit;
  SalesforceClient := init;
  client_get_accounts := λ _, list_accounts;
  client_get_account_by_id := λ _, get_by_id;
  client_search_accounts := λ _, search;
  client_create_account := λ _, create;
  client_update_account := λ _, update;
  client_delete_account := λ _, remove;
  client_get_account_opportunities := λ _, related opportunities;
  client_get_account_contacts := λ _, related contacts;
  server_serve := serve_forever
|}.

(** The freshly loaded module in front of a given remote. *)
Definition start (w : Remote) : State := @initial collaborators w.

(** Field [k] is among those a [get_account_by_id] with argument [fields]
    asks for. *)
Definition retrieved (fields : Arg (option (list string))) (k : string) : Prop :=
  match or_default None fields with
  | None => True
  | Some fs => k ∈ fs
  end.

(** The states in which the modelled client has nothing to give for
    [account_id]: the client cannot be created, or it has no session, or
    the remote holds no such record. *)
Definition unavailable (account_id : string) (s : @State Crm.collaborators) : Prop :=
  match sf_client s with
  | None => credentials (world s) = false ∨ accounts (world s) !! account_id = None
  | Some _ =>
      authenticated (world s) = false ∨ accounts (world s) !! account_id = None
  end.

(** A small org to run the tools on. *)
Definition acme : record :=
  {[ "Id" := PStr "001A"; "Name" := PStr "Acme Inc"; "Industry" := PStr "Tools" ]}.
Definition globex : record :=
  {[ "Id" := PStr "001B"; "Name" := PStr "Globex"; "Phone" := PStr "555-0123" ]}.
Definition org : Remote :=
  mkRemote true false {[ "001A" := acme; "001B" := globex ]} [] [].

End Crm.

(** ** Concrete runs *)

Module Runs.
Import Scripted.

(** A script in which the client is created and one call answers an empty
    list. *)
Definition quiet : State := start [Ok PNone; Ok (PList [])].
Definition quiet_ready : State :=
  state (Some the_client) [Ok (PList [])] [EvConstruct true].

(** A script in which creating the client fails once. *)
Definition broken : State := start [Raise (ValueError "no credentials"); Ok PNone].

(** The payload of the repository's create test. *)
Definition test_account : record :=
  {[ "Name" := PStr "Test MCP Account - DELETE ME"; "Type" := PStr "Prospect";
     "Phone" := PStr "555-0123" ]}.

End Runs.

(** * The test script [tests/test_mcp_server.py]

    The script drives a [SalesforceClient] directly.  It passes to the
    client whatever earlier calls returned, so here a method call is what
    Python performs: a method name with positional and keyword arguments,
    all of them values of any type.  Strings are UTF-8 text. *)

Module Tests.

(** ** Python built-ins the script applies to values of any type *)

(** ["\n"] *)
Definition nl : string := String (Ascii.ascii_of_nat 10) EmptyString.

(** [s * n] *)
Fixpoint str_mul (s : string) (n : nat) : string :=
  match n with
  | O => EmptyString
  | S n' => s +:+ str_mul s n'
  end.

(** [bool(v)] *)
Definition truthy (v : PyVal) : bool :=
  match v with
  | PNone => false
  | PBool b => b
  | PInt z => negb (z =? 0)%Z
  | PStr s => match s with EmptyString => false | _ => true end
  | PList l => match l with [] => false | _ => true end
  | PDict d => negb (Nat.eqb (size d) 0)
  end.

(** [type(v).__name__] *)
Definition type_name (v : PyVal) : string :=
  match v with
  | PNone => "NoneType"
  | PBool _ => "bool"
  | PInt _ => "int"
  | PStr _ => "str"
  | PList _ => "list"
  | PDict _ => "dict"
  end.

Definition TypeError (msg : string) : PyExn := mkExn "TypeError" msg true.
Definition AttributeError (msg : string) : PyExn := mkExn "AttributeError" msg true.
Definition IndexError (msg : string) : PyExn := mkExn "IndexError" msg true.
Definition KeyError (msg : string) : PyExn := mkExn "KeyError" msg true.

(** [SystemExit(code)], raised by [sys.exit(code)]; not an [Exception]. *)
Definition SystemExit (code : Z) : PyExn := mkExn "SystemExit" (pretty code) false.

(** A byte that continues a UTF-8 character ([10xxxxxx]). *)
Definition is_continuation (a : Ascii.ascii) : bool :=
  (N.land (Ascii.N_of_ascii a) 192 =? 128)%N.

(** The number of characters of a UTF-8 text. *)
Fixpoint utf8_length (s : string) : nat :=
  match s with
  | EmptyString => O
  | String a rest =>
      if is_continuation a then utf8_length rest else S (utf8_length rest)
  end.

(** The continuation bytes at the front of a text. *)
Fixpoint continuation_bytes (s : string) : string :=
  match s with
  | EmptyString => EmptyString
  | String a rest =>
      if is_continuation a then String a (continuation_bytes rest) else EmptyString
  end.

(** [len(v)] *)
Definition py_len (v : PyVal) : Outcome nat :=
  match v with
  | PStr s => Ok (utf8_length s)
  | PList l => Ok (length l)
  | PDict d => Ok (size d)
  | _ => Raise (TypeError ("object of type '" +:+ type_name v +:+ "' has no len()"))
  end.

(** [v[0]] *)
Definition py_first (v : PyVal) : Outcome PyVal :=
  match v with
  | PList (x :: _) => Ok x
  | PList [] => Raise (IndexError "list index out of range")
  | PStr (String a rest) => Ok (PStr (String a (continuation_bytes rest)))
  | PStr EmptyString => Raise (IndexError "string index out of range")
  | PDict _ => Raise (KeyError "0")
  | _ => Raise (TypeError ("'" +:+ type_name v +:+ "' object is not subscriptable"))
  end.

(** [v.get(key)] *)
Definition py_get (v : PyVal) (key : string) : Outcome PyVal :=
  match v with
  | PDict d => Ok (default PNone (d !! key))
  | _ => Raise (AttributeError
                  ("'" +:+ type_name v +:+ "' object has no attribute 'get'"))
  end.

(** [v[0].get(key)] *)
Definition py_first_get (v : PyVal) (key : string) : Outcome PyVal :=
  match py_first v with
  | Ok x => py_get x key
  | Raise e => Raise e
  end.

(** What the script is run against.  [Outside] is everything outside the
    process (remote CRM, session, environment, files); [Object] is the
    identity of a [SalesforceClient] object. *)
Class Env : Type := {
  Outside : Type;
  Object : Type;
  (** [SalesforceClient(auto_auth=...)] *)
  new_client : bool → Outside → Outcome Object * Outside;
  (** [getattr(client, name)] called on positional and keyword arguments *)
  method : Object → string → list PyVal → list (string * PyVal) →
           Outside → Outcome PyVal * Outside;
  (** [os.environ.get(name)] *)
  environ_get : string → Outside → option string;
  (** [str(v)] for a list or a dict *)
  container_str : PyVal → string;
  (** [str(Path(__file__).parent / "config" / ".env")] *)
  env_file : string;
  (** [env_file.exists()] *)
  env_file_exists : Outside → bool;
  (** [from dotenv import load_dotenv; load_dotenv(env_file)] *)
  load_dotenv : Outside → Outcome PyVal * Outside
}.

Section Script.
Context `{Env}.

(** [str(v)], as an f-string formats [v]. *)
Definition py_str (v : PyVal) : string :=
  match v with
  | PNone => "None"
  | PBool true => "True"
  | PBool false => "False"
  | PInt z => pretty z
  | PStr s => s
  | _ => container_str v
  end.

(** What the script does that can be observed, in program order. *)
Inductive Event : Type :=
  | Print (line : string)
  | Construct (auto_auth : bool)
  | Call (c : Object) (name : string) (args : list PyVal)
         (kwargs : list (string * PyVal))
  | LoadDotenv.

(** The attributes of a [TestSalesforceClient] object. *)
Record Self : Type := mkSelf {
  client : Object;
  test_account_id : PyVal
}.

(** The state in which a method of the object runs. *)
Record State : Type := mkState {
  self : Self;
  outside : Outside;
  log : list Event
}.

Definition T (A : Type) : Type := State → Outcome A * State.

Definition ret {A} (a : A) : T A := λ s, (Ok a, s).

Definition bind {A B} (m : T A) (k : A → T B) : T B :=
  λ s, match m s with
       | (Ok a, s') => k a s'
       | (Raise e, s') => (Raise e, s')
       end.

(** The value or exception of an expression without effects. *)
Definition lift {A} (o : Outcome A) : T A := λ s, (o, s).

(** [try: body  except Exception as e: handler(e)] *)
Definition try_except {A} (body : T A) (handler : PyExn → T A) : T A :=
  λ s, match body s with
       | (Ok a, s') => (Ok a, s')
       | (Raise e, s') =>
           if exn_is_Exception e then handler e s' else (Raise e, s')
       end.

Declare Scope test_scope.
Notation "x ← y ; z" := (bind y (λ x, z))
  (at level 20, y at level 100, z at level 200, only parsing) : test_scope.
Notation "y ;; z" := (bind y (λ _, z))
  (at level 100, z at level 200, only parsing, right associativity) : test_scope.
Local Open Scope test_scope.

Definition print (line : string) : T unit :=
  λ s, (Ok tt, mkState (self s) (outside s) (log s ++ [Print line])).

(** [getattr(self.client, name)] called on positional and keyword arguments *)
Definition call (name : string) (args : list PyVal) (kwargs : list (string * PyVal))
    : T PyVal :=
  λ s, let c := client (self s) in
       let '(r, w) := method c name args kwargs (outside s) in
       (r, mkState (self s) w (log s ++ [Call c name args kwargs])).

(** [os.environ.get(name)] *)
Definition environ (name : string) : T (option string) :=
  λ s, (Ok (environ_get name (outside s)), s).

Definition get_test_account_id : T PyVal :=
  λ s, (Ok (test_account_id (self s)), s).

Definition set_test_account_id (v : PyVal) : T unit :=
  λ s, (Ok tt, mkState (mkSelf (client (self s)) v) (outside s) (log s)).

(** [bool(x)] for what [os.environ.get] returns. *)
Definition env_truthy (x : option string) : bool :=
  match x with
  | Some (String _ _) => true
  | _ => false
  end.

(** ** [class TestSalesforceClient] *)

(** [def __init__(self)], started in world [w] with [out] printed so far. *)
Definition init (w : Outside) (out : list Event) : Outcome State * Outside * list Event :=
  match new_client false w with
  | (Ok c, w') =>
      (Ok (mkState (mkSelf c PNone) w' (out ++ [Construct false])),
       w', out ++ [Construct false])
  | (Raise e, w') => (Raise e, w', out ++ [Construct false])
  end.

(** [def setup(self)]: setup test environment. *)
Definition setup : T bool :=
  print "🔧 Setting up test environment..." ;;
  client_id ← environ "SALESFORCE_CLIENT_ID";
  client_secret ← environ "SALESFORCE_CLIENT_SECRET";
  if negb (forallb env_truthy [client_id; client_secret]) then
    print "❌ ERROR: Salesforce credentials not configured!" ;;
    print "Please set the following environment variables:" ;;
    print "  - SALESFORCE_CLIENT_ID" ;;
    print "  - SALESFORCE_CLIENT_SECRET" ;;
    print "  - SALESFORCE_INSTANCE_URL (optional)" ;;
    ret false
  else
    try_except
      (print "🔐 Authenticating with Salesforce..." ;;
       token_data ← call "authenticate_client_credentials" [] [];
       print "✅ Authentication successful!" ;;
       instance_url ← lift (py_get token_data "instance_url");
       print ("   Instance: " +:+ py_str instance_url) ;;
       ret true)
      (λ e,
       print ("❌ Authentication failed: " +:+ exn_str e) ;;
       ret false).

(** [def test_get_accounts(self)]: test retrieving accounts. *)
Definition test_get_accounts : T bool :=
  print (nl +:+ "📋 Test: Get Accounts") ;;
  try_except
    (accounts ← call "get_accounts" [] [("limit", PInt 5)];
     n ← lift (py_len accounts);
     print ("✅ Retrieved " +:+ pretty n +:+ " accounts") ;;
     (if truthy accounts then
        name ← lift (py_first_get accounts "Name");
        id ← lift (py_first_get accounts "Id");
        print ("   First account: " +:+ py_str name +:+ " (ID: " +:+ py_str id +:+ ")") ;;
        id' ← lift (py_first_get accounts "Id");
        set_test_account_id id'
      else ret tt) ;;
     ret true)
    (λ e,
     print ("❌ Failed: " +:+ exn_str e) ;;
     ret false).

(** [def test_get_account_by_id(self)]: test retrieving a specific account. *)
Definition test_get_account_by_id : T bool :=
  account_id ← get_test_account_id;
  if negb (truthy account_id) then
    print (nl +:+ "⏭️  Skipping test_get_account_by_id (no account ID available)") ;;
    ret true
  else
    print (nl +:+ "🔍 Test: Get Account by ID (" +:+ py_str account_id +:+ ")") ;;
    try_except
      (account ← call "get_account_by_id" [account_id] [];
       name ← lift (py_get account "Name");
       print ("✅ Retrieved account: " +:+ py_str name) ;;
       type ← lift (py_get account "Type");
       print ("   Type: " +:+ py_str type) ;;
       industry ← lift (py_get account "Industry");
       print ("   Industry: " +:+ py_str industry) ;;
       ret true)
      (λ e,
       print ("❌ Failed: " +:+ exn_str e) ;;
       ret false).

(** [def test_search_accounts(self)]: test searching for accounts. *)
Definition test_search_accounts : T bool :=
  print (nl +:+ "🔎 Test: Search Accounts") ;;
  try_except
    (results ← call "search_accounts" [PStr "Inc"] [("limit", PInt 5)];
     n ← lift (py_len results);
     print ("✅ Found " +:+ pretty n +:+ " accounts matching 'Inc'") ;;
     (if truthy results then
        name ← lift (py_first_get results "Name");
        print ("   First result: " +:+ py_str name)
      else ret tt) ;;
     ret true)
    (λ e,
     print ("❌ Failed: " +:+ exn_str e) ;;
     ret false).

Definition test_account_data : record :=
  {[ "Name" := PStr "Test MCP Account - DELETE ME";
     "Type" := PStr "Prospect";
     "Industry" := PStr "Technology";
     "Phone" := PStr "555-0123";
     "Website" := PStr "https://test-mcp.example.com";
     "BillingCity" := PStr "San Francisco";
     "BillingState" := PStr "CA";
     "BillingCountry" := PStr "USA" ]}.

Definition update_data : record :=
  {[ "Phone" := PStr "555-9999";
     "Description" := PStr "Updated by MCP test script" ]}.

(** [def test_create_and_delete_account(self)]: test creating and deleting
    an account. *)
Definition test_create_and_delete_account : T bool :=
  print (nl +:+ "➕ Test: Create Account") ;;
  created ← try_except
    (created_account_id ← call "create_account" [PDict test_account_data] [];
     print ("✅ Created test account: " +:+ py_str created_account_id) ;;
     ret (Some created_account_id))
    (λ e,
     print ("❌ Create failed: " +:+ exn_str e) ;;
     ret None);
  match created with
  | None => ret false
  | Some created_account_id =>
      print (nl +:+ "✏️  Test: Update Account") ;;
      try_except
        (call "update_account" [created_account_id; PDict update_data] [] ;;
         print ("✅ Updated account " +:+ py_str created_account_id))
        (λ e, print ("❌ Update failed: " +:+ exn_str e)) ;;
      print (nl +:+ "🗑️  Test: Delete Account") ;;
      try_except
        (call "delete_account" [created_account_id] [] ;;
         print ("✅ Deleted test account " +:+ py_str created_account_id) ;;
         ret true)
        (λ e,
         print ("❌ Delete failed: " +:+ exn_str e) ;;
         ret false)
  end.

(** [def test_get_related_records(self)]: test getting opportunities and
    contacts. *)
Definition test_get_related_records : T bool :=
  account_id ← get_test_account_id;
  if negb (truthy account_id) then
    print (nl +:+ "⏭️  Skipping test_get_related_records (no account ID available)") ;;
    ret true
  else
    print (nl +:+ "📊 Test: Get Account Opportunities (" +:+ py_str account_id +:+ ")") ;;
    try_except
      (opportunities ← call "get_account_opportunities" [account_id] [("limit", PInt 5)];
       n ← lift (py_len opportunities);
       print ("✅ Retrieved " +:+ pretty n +:+ " opportunities") ;;
       if truthy opportunities then
         name ← lift (py_first_get opportunities "Name");
         print ("   First opportunity: " +:+ py_str name)
       else ret tt)
      (λ e, print ("❌ Failed: " +:+ exn_str e)) ;;
    print (nl +:+ "👥 Test: Get Account Contacts (" +:+ py_str account_id +:+ ")") ;;
    try_except
      (contacts ← call "get_account_contacts" [account_id] [("limit", PInt 5)];
       n ← lift (py_len contacts);
       print ("✅ Retrieved " +:+ pretty n +:+ " contacts") ;;
       (if truthy contacts then
          name ← lift (py_first_get contacts "Name");
          print ("   First contact: " +:+ py_str name)
        else ret tt) ;;
       ret true)
      (λ e,
       print ("❌ Failed: " +:+ exn_str e) ;;
       ret false).

(** The list [tests] of [run_all_tests]. *)
Definition tests : list (string * T bool) :=
  [ ("Get Accounts", test_get_accounts);
    ("Get Account by ID", test_get_account_by_id);
    ("Search Accounts", test_search_accounts);
    ("Create/Update/Delete Account", test_create_and_delete_account);
    ("Get Related Records", test_get_related_records) ].

(** The loop [for test_name, test_func in tests] of [run_all_tests], with
    [results] as collected so far. *)
Fixpoint run_tests (ts : list (string * T bool)) (results : list (string * bool))
    : T (list (string * bool)) :=
  match ts with
  | [] => ret results
  | (test_name, test_func) :: rest =>
      results' ← try_except
        (result ← test_func;
         ret (results ++ [(test_name, result)]))
        (λ e,
         print (nl +:+ "❌ Test '" +:+ test_name +:+ "' crashed: " +:+ exn_str e) ;;
         ret (results ++ [(test_name, false)]));
      run_tests rest results'
  end.

(** [sum(1 for _, result in results if result)] *)
Definition passed_count (results : list (string * bool)) : nat :=
  length (List.filter snd results).

(** The loop [for test_name, result in results] of the summary. *)
Fixpoint print_results (results : list (string * bool)) : T unit :=
  match results with
  | [] => ret tt
  | (test_name, result) :: rest =>
      let status := if result then "✅ PASS" else "❌ FAIL" in
      print ("  " +:+ status +:+ " - " +:+ test_name) ;;
      print_results rest
  end.

(** [def run_all_tests(self)]: run all tests. *)
Definition run_all_tests : T bool :=
  print (str_mul "=" 70) ;;
  print "🧪 SALESFORCE MCP SERVER TEST SUITE" ;;
  print (str_mul "=" 70) ;;
  ready ← setup;
  if negb ready then
    print (nl +:+ "❌ Setup failed. Aborting tests.") ;;
    ret false
  else
    results ← run_tests tests [];
    print (nl +:+ str_mul "=" 70) ;;
    print "📊 TEST SUMMARY" ;;
    print (str_mul "=" 70) ;;
    let passed := passed_count results in
    let total := length results in
    print_results results ;;
    print (nl +:+ "  Total: " +:+ pretty passed +:+ "/" +:+ pretty total +:+ " tests passed") ;;
    print (str_mul "=" 70) ;;
    ret (Nat.eqb passed total).

(** ** Module level *)

(** [async def test_mcp_server_integration()]: what it prints. *)
Definition test_mcp_server_integration : list Event :=
  [ Print (nl +:+ str_mul "=" 70);
    Print "🌐 MCP SERVER INTEGRATION TEST";
    Print (str_mul "=" 70);
    Print (nl +:+ "⚠️  This test requires the MCP server to be running separately.");
    Print "Start the server with: python src/main.py";
    Print (nl +:+ "📝 Note: Full integration testing with MCP client is a future enhancement.");
    Print (str_mul "=" 70) ].

(** The value of [--mode] after [parser.parse_args()]. *)
Inductive Mode : Type := unit_mode | integration_mode | all_mode.

Definition runs_unit (mode : Mode) : bool :=
  match mode with unit_mode | all_mode => true | integration_mode => false end.

Definition runs_integration (mode : Mode) : bool :=
  match mode with integration_mode | all_mode => true | unit_mode => false end.

(** [def main()]: main test runner, after the arguments are parsed. *)
Definition main (mode : Mode) (w : Outside) : Outcome unit * Outside * list Event :=
  let '(loaded, w, out) :=
    if env_file_exists w then
      let '(r, w') := load_dotenv w in
      (r, w', [Print ("📁 Loading environment from " +:+ env_file); LoadDotenv])
    else (Ok PNone, w, [])
  in
  match loaded with
  | Raise e => (Raise e, w, out)
  | Ok _ =>
      let '(success, w, out) :=
        if runs_unit mode then
          match init w out with
          | (Ok tester, _, _) =>
              let '(r, s) := run_all_tests tester in
              (r, outside s, log s)
          | (Raise e, w', out') => (Raise e, w', out')
          end
        else (Ok true, w, out)
      in
      match success with
      | Raise e => (Raise e, w, out)
      | Ok success =>
          let out :=
            if runs_integration mode then out ++ test_mcp_server_integration else out in
          (Raise (SystemExit (if success then 0 else 1)), w, out)
      end
  end.

(** ** Vocabulary for the properties *)

(** The outcome is not an exception that [except Exception] lets through. *)
Definition catchable {A} (r : Outcome A) : Prop :=
  match r with
  | Ok _ => True
  | Raise e => exn_is_Exception e = true
  end.

(** No [Exception] leaves the computation. *)
Definition contains_exceptions {A} (m : T A) : Prop :=
  ∀ s, match (m s).1 with
       | Ok _ => True
       | Raise e => exn_is_Exception e = false
       end.

Definition is_call (ev : Event) : bool :=
  match ev with Call _ _ _ _ => true | _ => false end.

(** The method calls of a log, in order. *)
Definition calls (out : list Event) : list Event := List.filter is_call out.

Definition returned {A} (r : Outcome A) : bool :=
  match r with Ok _ => true | Raise _ => false end.

Definition is_dict (v : PyVal) : bool :=
  match v with PDict _ => true | _ => false end.

(** The call returned a value that the listing tests can summarise: it
    has a length and, unless it is empty, a first element with [get]. *)
Definition summarised (r : Outcome PyVal) : bool :=
  match r with
  | Ok v => returned (py_len v) && (negb (truthy v) || returned (py_first_get v "Name"))
  | Raise _ => false
  end.

(** What [run_all_tests] has done when it calls [setup]. *)
Definition after_header (s : State) : State :=
  mkState (self s) (outside s)
    (log s ++ [Print (str_mul "=" 70);
               Print "🧪 SALESFORCE MCP SERVER TEST SUITE";
               Print (str_mul "=" 70)]).

End Script.

End Tests.

(** ** A scripted environment for the test script *)

Module TestRuns.

(** Environment variables and a script of canned outcomes, consumed by
    the client's constructor and methods in order. *)
Record Lab : Type := mkLab {
  variables : gmap string string;
  script : list (Outcome PyVal)
}.

Definition next (w : Lab) : Outcome PyVal * Lab :=
  match script w with
  | [] => (Raise Scripted.exhausted, w)
  | r :: rest => (r, mkLab (variables w) rest)
  end.

#[export] Instance env : Tests.Env := {|
  Tests.Outside := Lab;
  Tests.Object := unit;
  Tests.new_client := λ _ w,
    match next w with
    | (Ok _, w') => (Ok tt, w')
    | (Raise e, w') => (Raise e, w')
    end;
  Tests.method := λ _ _ _ _, next;
  Tests.environ_get := λ name w, variables w !! name;
  Tests.container_str := λ _, "[...]";
  Tests.env_file := "tests/config/.env";
  Tests.env_file_exists := λ _, false;
  Tests.load_dotenv := next
|}.

Definition configured : gmap string string :=
  {[ "SALESFORCE_CLIENT_ID" := "id"; "SALESFORCE_CLIENT_SECRET" := "secret" ]}.

(** A [TestSalesforceClient] object in front of a script, with the
    account id it remembers. *)
Definition tester (account_id : PyVal) (vars : gmap string string)
    (outcomes : list (Outcome PyVal)) : @Tests.State env :=
  Tests.mkState (Tests.mkSelf (tt : @Tests.Object env) account_id)
                (mkLab vars outcomes) [].

Definition NotFound : PyExn := mkExn "SalesforceError" "NOT_FOUND" true.

(** Create returns an id, the update fails, the delete goes through. *)
Definition update_fails : @Tests.State env :=
  tester PNone configured [Ok (PStr "001X"); Raise NotFound; Ok PNone].

(** One account comes back from [get_accounts]. *)
Definition one_account : @Tests.State env :=
  tester PNone configured [Ok (PList [PDict {[ "Id" := PStr "001A" ]}])].

(** An account id is known; opportunities fail, contacts are empty. *)
Definition no_opportunities : @Tests.State env :=
  tester (PStr "001A") configured [Raise NotFound; Ok (PList [])].

(** A run in which every test passes. *)
Definition all_green : @Tests.State env :=
  tester PNone configured
    [ Ok (PDict {[ "instance_url" := PStr "https://example.my.salesforce.com" ]});
      Ok (PList [PDict {[ "Id" := PStr "001A"; "Name" := PStr "Acme Inc" ]}]);
      Ok (PDict {[ "Name" := PStr "Acme Inc" ]});
      Ok (PList []);
      Ok (PStr "001X"); Ok PNone; Ok PNone;
      Ok (PList []); Ok (PList []) ].

(** No credentials in the environment; the constructor works. *)
Definition unconfigured : Lab := mkLab ∅ [Ok PNone].

End TestRuns.

(** * Properties of the adapter *)

Section AdapterFacts.
Context `{Collaborators}.

Ltac run :=
  unfold bind, ret, call, new_SalesforceClient, serve, print, external,
    get_sf_client, set_sf_client; simpl.

Lemma get_client_some (s : State) (c : Client) :
  sf_client s = Some c → get_client s = (Ok c, s).
Proof. intros Hc. unfold get_client. run. by rewrite Hc. Qed.

Lemma get_client_none (s : State) :
  sf_client s = None →
  get_client s =
    match SalesforceClient true (world s) with
    | (Ok c, w) => (Ok c, mkState (Some c) w (trace s ++ [EvConstruct true]))
    | (Raise e, w) => (Raise e, mkState None w (trace s ++ [EvConstruct true]))
    end.
Proof.
  intros Hc. unfold get_client. run. rewrite Hc.
  destruct (SalesforceClient true (world s)) as [[c|e] w]; simpl; [done|].
  by rewrite Hc.
Qed.

(** A successful [get_client] leaves the returned object in [sf_client]. *)
Lemma get_client_ok (s s1 : State) (c : Client) :
  get_client s = (Ok c, s1) → sf_client s1 = Some c.
Proof.
  destruct (sf_client s) as [c0|] eqn:Hc.
  - rewrite (get_client_some s c0 Hc). intros [= <- <-]. done.
  - rewrite (get_client_none s Hc).
    destruct (SalesforceClient true (world s)) as [[c1|e] w]; by intros [= <- <-].
Qed.

(** Every tool is [get_client] followed by one method call; the two
    mutating tools then drop the method's value and answer [True]. *)
Lemma invoke_unfold (t : ToolCall) (s : State) :
  invoke t s =
    match get_client s with
    | (Ok c, s1) =>
        match method_impl c (client_method_of t) (world s1) with
        | (Ok v, w) =>
            (Ok (if passes_result_through t then v else PBool true),
             mkState (sf_client s1) w (trace s1 ++ [EvCall c (client_method_of t)]))
        | (Raise e, w) =>
            (Raise e,
             mkState (sf_client s1) w (trace s1 ++ [EvCall c (client_method_of t)]))
        end
    | (Raise e, s1) => (Raise e, s1)
    end.
Proof.
  destruct t; simpl;
    unfold get_accounts, get_account_by_id, search_accounts, create_account,
      update_account, delete_account, get_account_opportunities,
      get_account_contacts; run;
    destruct (get_client s) as [[c|e] s1]; try done; simpl;
    match goal with
    | |- context [let '(_, _) := ?op in _] => by destruct op as [[v|e] w]
    end.
Qed.

(** C1: each of the six result-returning tools ([get_accounts],
    [get_account_by_id], [search_accounts], [create_account],
    [get_account_opportunities], [get_account_contacts]) answers exactly
    what the client method of the same name answers on the tool's
    arguments: once [get_client] has produced the client, the tool makes
    that one call, hands back its outcome untouched, and leaves nothing
    behind but the call in the log. *)
Theorem tools_pass_client_result (t : ToolCall) (s s1 : State) (c : Client) :
  passes_result_through t = true →
  get_client s = (Ok c, s1) →
  invoke t s =
    let '(r, w) := method_impl c (client_method_of t) (world s1) in
    (r, mkState (Some c) w (trace s1 ++ [EvCall c (client_method_of t)])).
Proof.
  intros Hpass Hget. rewrite invoke_unfold, Hget, Hpass.
  rewrite (get_client_ok _ _ _ Hget).
  by destruct (method_impl c (client_method_of t) (world s1)) as [[v|e] w].
Qed.

(** C2: whenever the client raises, be it while it is created or inside
    the method a tool calls, the tool call raises that very exception;
    this holds for all eight tools. *)
Theorem client_errors_propagate (t : ToolCall) (s s' : State) (e : PyExn) :
  client_raises t s e s' → invoke t s = (Raise e, s').
Proof.
  intros [Hget | c s1 w Hget Hm ->]; rewrite invoke_unfold, Hget; [done|].
  by rewrite Hm, (get_client_ok _ _ _ Hget).
Qed.

(** C4: [update_account] and [delete_account] answer [True] exactly when
    the client exists and its method returns (whatever it returns), and
    neither ever answers [False]. *)
Theorem update_delete_return_true (account_id : string) (account_data : record)
    (s : State) :
  ((update_account account_id account_data s).1 = Ok (PBool true) ↔
     ∃ c s1 v w, get_client s = (Ok c, s1) ∧
       client_update_account c account_id account_data (world s1) = (Ok v, w)) ∧
  (update_account account_id account_data s).1 ≠ Ok (PBool false) ∧
  ((delete_account account_id s).1 = Ok (PBool true) ↔
     ∃ c s1 v w, get_client s = (Ok c, s1) ∧
       client_delete_account c account_id (world s1) = (Ok v, w)) ∧
  (delete_account account_id s).1 ≠ Ok (PBool false).
Proof.
  pose proof (invoke_unfold (TUpdateAccount account_id account_data) s) as Hu.
  pose proof (invoke_unfold (TDeleteAccount account_id) s) as Hd.
  simpl in Hu, Hd. rewrite Hu, Hd. clear Hu Hd.
  destruct (get_client s) as [[c|e] s1]; simpl.
  - destruct (client_update_account c account_id account_data (world s1))
      as [[v|e] w] eqn:Hup;
    destruct (client_delete_account c account_id (world s1))
      as [[v'|e'] w'] eqn:Hdel; simpl;
    repeat split; try done; try (intros _; by eexists _, _, _, _);
    intros (c0 & s0 & v0 & w0 & [= <- <-] & Hcall); congruence.
  - repeat split; try done; by intros (? & ? & ? & ? & ? & ?).
Qed.

(** C10: a left-out [limit] reaches the client as 10 in each of the four
    list tools, and a left-out [fields] reaches it as [None] in
    [get_accounts] and [get_account_by_id]. *)
Theorem default_arguments (s s1 : State) (c : Client) :
  get_client s = (Ok c, s1) →
  (∀ fields, get_accounts Omitted fields s
             = call c (MGetAccounts 10 (or_default None fields)) s1) ∧
  (∀ term, search_accounts term Omitted s = call c (MSearchAccounts term 10) s1) ∧
  (∀ id, get_account_opportunities id Omitted s
         = call c (MGetAccountOpportunities id 10) s1) ∧
  (∀ id, get_account_contacts id Omitted s
         = call c (MGetAccountContacts id 10) s1) ∧
  (∀ limit, get_accounts limit Omitted s
            = call c (MGetAccounts (or_default 10 limit) None) s1) ∧
  (∀ id, get_account_by_id id Omitted s = call c (MGetAccountById id None) s1).
Proof.
  intros Hget.
  repeat split; intros;
    unfold get_accounts, get_account_by_id, search_accounts,
      get_account_opportunities, get_account_contacts, bind;
    by rewrite Hget.
Qed.

Lemma constructions_app (tr tr' : list Event) :
  constructions (tr ++ tr') = (constructions tr + constructions tr')%nat.
Proof. unfold constructions. by rewrite List.filter_app, length_app. Qed.

(** [main], statement by statement. *)
Lemma main_unfold (s : State) :
  main s =
    match get_client (mkState (sf_client s) (world s) (trace s ++ startup_banner)) with
    | (Ok c, s1) =>
        serving (mkState (sf_client s1) (world s1)
                   (trace s1 ++ [EvPrint "✅ Salesforce client initialized successfully";
                                 EvPrint EmptyString]))
    | (Raise e, s1) =>
        if exn_is_Exception e
        then serving (mkState (sf_client s1) (world s1)
                        (trace s1 ++ warning_lines e ++ [EvPrint EmptyString]))
        else (Raise e, s1)
    end.
Proof.
  unfold main, try_except_Exception, serving. run.
  rewrite <- !app_assoc. simpl.
  destruct (get_client _) as [[c|e] s1]; simpl.
  - destruct (server_serve _ _ _ _) as [[v|e] w]; by rewrite <- !app_assoc.
  - destruct (exn_is_Exception e); [|done]. simpl.
    destruct (server_serve _ _ _ _) as [[v|e'] w]; by rewrite <- !app_assoc.
Qed.

(** Once [sf_client] holds a client, nothing the process does replaces it
    or constructs another one. *)
Lemma step_keeps_client (s s' : State) (c : Client) :
  step s s' → sf_client s = Some c →
  sf_client s' = Some c ∧ constructions (trace s') = constructions (trace s).
Proof.
  intros Hstep Hc. destruct Hstep as [t s | s | s | s w].
  - rewrite invoke_unfold, (get_client_some s c Hc).
    destruct (method_impl c (client_method_of t) (world s)) as [[v|e] w]; simpl;
      rewrite constructions_app; unfold constructions; simpl; split; (done || lia).
  - by rewrite (get_client_some s c Hc).
  - rewrite main_unfold, (get_client_some _ c) by done.
    unfold serving. simpl.
    destruct (server_serve _ _ _ _) as [[v|e] w]; simpl;
      rewrite !constructions_app; unfold constructions; simpl; split; (done || lia).
  - done.
Qed.

(** C3: the first [get_client] of a freshly loaded module constructs the
    client (one constructor call) and stores it; from then on, whatever
    the process does (tool invocations, further [get_client] calls, the
    world changing), [get_client] returns that same object, changes
    nothing, and the constructor is never called again. *)
Theorem lazy_singleton (s s1 : State) (c : Client) :
  sf_client s = None →
  get_client s = (Ok c, s1) →
  sf_client s1 = Some c ∧
  constructions (trace s1) = S (constructions (trace s)) ∧
  ∀ s2, rtc step s1 s2 →
    get_client s2 = (Ok c, s2) ∧
    constructions (trace s2) = constructions (trace s1).
Proof.
  intros Hnone Hget. pose proof (get_client_ok _ _ _ Hget) as Hc1.
  split; [done|]. split.
  - rewrite (get_client_none s Hnone) in Hget.
    destruct (SalesforceClient true (world s)) as [[c0|e] w]; [|done].
    injection Hget as <- <-. simpl. rewrite constructions_app.
    unfold constructions. simpl. lia.
  - intros s2 Hrun.
    cut (sf_client s2 = Some c ∧ constructions (trace s2) = constructions (trace s1)).
    { intros [Hc2 Hn]. by rewrite (get_client_some s2 c Hc2). }
    revert s2 Hrun. apply rtc_ind_r; [done|].
    intros s2 s3 _ Hstep [Hc2 Hn].
    destruct (step_keeps_client _ _ _ Hstep Hc2) as [Hc3 Hn3].
    split; [done | congruence].
Qed.

(** C5: when creating the client fails at startup with an [Exception],
    [main] prints the two warning lines with the error's text and goes on
    to call [server.serve]; its outcome is the server's, never the client
    error. *)
Theorem startup_survives_client_failure (s : State) (e : PyExn) (w : World) :
  sf_client s = None →
  SalesforceClient true (world s) = (Raise e, w) →
  exn_is_Exception e = true →
  main s =
    let '(r, w') := server_serve "streamable-http" false "critical" w in
    (match r with Ok _ => Ok tt | Raise e' => Raise e' end,
     mkState None w'
       (trace s ++ startup_banner ++ [EvConstruct true] ++ warning_lines e ++
        [EvPrint EmptyString; EvServe "streamable-http" false "critical"])).
Proof.
  intros Hnone Hinit Hexn.
  rewrite main_unfold, get_client_none by done. simpl.
  rewrite Hinit, Hexn. unfold serving. simpl.
  destruct (server_serve _ _ _ w) as [[v|e'] w']; by rewrite <- !app_assoc.
Qed.

(** While [sf_client] is unset, a step either leaves it unset or sets it
    to a client that a new constructor call has just produced. *)
Lemma step_from_unset (s s' : State) :
  step s s' → sf_client s = None →
  (constructions (trace s) ≤ constructions (trace s'))%nat ∧
  (sf_client s' = None ∨
   ∃ c, sf_client s' = Some c ∧
        (constructions (trace s) < constructions (trace s'))%nat).
Proof.
  intros Hstep Hnone. destruct Hstep as [t s | s | s | s w].
  - rewrite invoke_unfold, (get_client_none s Hnone).
    destruct (SalesforceClient true (world s)) as [[c|e] w]; simpl.
    + destruct (method_impl c (client_method_of t) w) as [[v|e] w']; simpl;
        rewrite !constructions_app; unfold constructions; simpl;
        (split; [lia | right; exists c; split; [done | lia]]).
    + rewrite constructions_app. split; [lia | by left].
  - rewrite (get_client_none s Hnone).
    destruct (SalesforceClient true (world s)) as [[c|e] w]; simpl;
      rewrite constructions_app; unfold constructions; simpl.
    + split; [lia | right; exists c; split; [done | lia]].
    + split; [lia | by left].
  - rewrite main_unfold, get_client_none by done. simpl.
    destruct (SalesforceClient true (world s)) as [[c|e] w]; simpl.
    + unfold serving. simpl.
      destruct (server_serve _ _ _ _) as [[v|e] w']; simpl;
        rewrite !constructions_app; unfold constructions; simpl;
        (split; [lia | right; exists c; split; [done | lia]]).
    + destruct (exn_is_Exception e); unfold serving; simpl.
      * destruct (server_serve _ _ _ _) as [[v|e'] w']; simpl;
          rewrite !constructions_app; (split; [lia | by left]).
      * rewrite !constructions_app. split; [lia | by left].
  - simpl. split; [lia | by left].
Qed.

(** C9: a constructor that raises leaves [sf_client] unset.  In any later
    state of the process, either a newer constructor call has succeeded
    and supplied the stored client, or the store is still unset and
    [get_client] calls the constructor again, returning the new client as
    soon as the constructor succeeds. *)
Theorem failed_init_not_cached (s : State) (e : PyExn) (w : World) :
  sf_client s = None →
  SalesforceClient true (world s) = (Raise e, w) →
  ∃ s1, get_client s = (Raise e, s1) ∧ sf_client s1 = None ∧
    ∀ s2, rtc step s1 s2 →
      (∃ c, sf_client s2 = Some c ∧
            (constructions (trace s1) < constructions (trace s2))%nat) ∨
      (sf_client s2 = None ∧
       trace (get_client s2).2 = trace s2 ++ [EvConstruct true] ∧
       ∀ c w', SalesforceClient true (world s2) = (Ok c, w') →
         get_client s2 = (Ok c, mkState (Some c) w' (trace s2 ++ [EvConstruct true]))).
Proof.
  intros Hnone Hinit.
  exists (mkState None w (trace s ++ [EvConstruct true])).
  split; [by rewrite (get_client_none s Hnone), Hinit|]. split; [done|].
  intros s2 Hrun.
  cut ((constructions (trace s ++ [EvConstruct true]) ≤ constructions (trace s2))%nat ∧
       (sf_client s2 = None ∨
        ∃ c, sf_client s2 = Some c ∧
             (constructions (trace s ++ [EvConstruct true])
              < constructions (trace s2))%nat)).
  { intros [_ [Hunset | Hset]]; [right | by left].
    split; [done|]. rewrite (get_client_none s2 Hunset).
    destruct (SalesforceClient true (world s2)) as [[c|e2] w2]; simpl;
      (split; [done|]); by intros c' w' [= <- <-]. }
  revert s2 Hrun. apply rtc_ind_r; simpl; [split; [lia | by left]|].
  intros s2 s3 _ Hstep [Hle [Hunset | (c & Hset & Hlt)]].
  - destruct (step_from_unset _ _ Hstep Hunset) as [Hle' [Hn | (c & Hc & Hlt)]].
    + split; [lia | by left].
    + split; [lia | right; exists c; split; [done | lia]].
  - destruct (step_keeps_client _ _ _ Hstep Hset) as [Hc Heq].
    split; [lia | right; exists c; split; [done | lia]].
Qed.

(** X5: an exception that is not an [Exception] ([KeyboardInterrupt],
    [SystemExit]) is not handled at startup: it leaves [main] right after
    the constructor call, before any warning is printed or the server is
    started. *)
Lemma startup_interrupt_propagates (s : State) (e : PyExn) (w : World) :
  sf_client s = None →
  SalesforceClient true (world s) = (Raise e, w) →
  exn_is_Exception e = false →
  main s = (Raise e, mkState None w (trace s ++ startup_banner ++ [EvConstruct true])).
Proof.
  intros Hnone Hinit Hexn.
  rewrite main_unfold, get_client_none by done. simpl.
  by rewrite Hinit, Hexn, <- app_assoc.
Qed.

End AdapterFacts.

(** * Further properties of the adapter *)

Section AdapterMore.
Context `{Collaborators}.

(** A tool called while the client is in place: one method call, nothing
    else. *)
Lemma invoke_with_client (t : ToolCall) (s : State) (c : Client) :
  sf_client s = Some c →
  sf_client (invoke t s).2 = Some c ∧
  world (invoke t s).2 = (method_impl c (client_method_of t) (world s)).2 ∧
  trace (invoke t s).2 = trace s ++ [EvCall c (client_method_of t)].
Proof.
  intros Hc. rewrite invoke_unfold, (get_client_some s c Hc).
  by destruct (method_impl c (client_method_of t) (world s)) as [[v|e] w].
Qed.

(** X1: an exception that leaves a tool call was raised by the client,
    either by its constructor or by the method the tool calls; the adapter
    raises nothing of its own and rejects no input. *)
Theorem adapter_raises_nothing_of_its_own (t : ToolCall) (s s' : State) (e : PyExn) :
  invoke t s = (Raise e, s') → client_raises t s e s'.
Proof.
  rewrite invoke_unfold.
  destruct (get_client s) as [[c|e0] s1] eqn:Hget.
  - destruct (method_impl c (client_method_of t) (world s1)) as [[v|e1] w] eqn:Hm;
      [done|].
    intros [= <- <-]. eapply raises_in_method; [done..|].
    by rewrite (get_client_ok _ _ _ Hget).
  - intros [= <- <-]. by apply raises_in_constructor.
Qed.

(** X2: [update_account] and [delete_account] call the client method of
    the same name once, on the arguments they were given, and leave the
    world as that call left it; the value the method returns is dropped
    and [True] is answered in its place, whatever the value was. *)
Theorem mutating_tools_forward_one_call (t : ToolCall) (s s1 : State) (c : Client)
    (v : PyVal) (w : World) :
  passes_result_through t = false →
  get_client s = (Ok c, s1) →
  method_impl c (client_method_of t) (world s1) = (Ok v, w) →
  invoke t s =
    (Ok (PBool true), mkState (Some c) w (trace s1 ++ [EvCall c (client_method_of t)])).
Proof.
  intros Hmut Hget Hm.
  by rewrite invoke_unfold, Hget, Hm, Hmut, (get_client_ok _ _ _ Hget).
Qed.

(** X3: what one tool call adds to the log: a constructor call exactly
    when [sf_client] was unset, then one method call exactly when
    [get_client] returned a client.  No tool prints, starts the server,
    calls the client twice, or calls a method after a failed
    construction. *)
Theorem tool_call_events (t : ToolCall) (s : State) :
  trace (invoke t s).2 =
    trace s ++
    match sf_client s with Some _ => [] | None => [EvConstruct true] end ++
    match (get_client s).1 with
    | Ok c => [EvCall c (client_method_of t)]
    | Raise _ => []
    end.
Proof.
  rewrite invoke_unfold. destruct (sf_client s) as [c|] eqn:Hc.
  - rewrite (get_client_some s c Hc). simpl.
    by destruct (method_impl c (client_method_of t) (world s)) as [[v|e] w].
  - rewrite (get_client_none s Hc).
    destruct (SalesforceClient true (world s)) as [[c|e] w]; simpl.
    + destruct (method_impl c (client_method_of t) w) as [[v|e] w']; simpl;
        by rewrite <- app_assoc.
    + done.
Qed.

(** X4: when the client can be created at startup, [main] prints the
    banner, creates and stores the client, prints the success line and
    calls [server.serve]; its outcome is the server's. *)
Theorem startup_with_working_client (s : State) (c : Client) (w : World) :
  sf_client s = None →
  SalesforceClient true (world s) = (Ok c, w) →
  main s =
    let '(r, w') := server_serve "streamable-http" false "critical" w in
    (match r with Ok _ => Ok tt | Raise e => Raise e end,
     mkState (Some c) w'
       (trace s ++ startup_banner ++
        [EvConstruct true;
         EvPrint "✅ Salesforce client initialized successfully";
         EvPrint EmptyString;
         EvServe "streamable-http" false "critical"])).
Proof.
  intros Hnone Hinit.
  rewrite main_unfold, get_client_none by done. simpl.
  rewrite Hinit. unfold serving. simpl.
  destruct (server_serve _ _ _ w) as [[v|e] w']; by rewrite <- !app_assoc.
Qed.

(** X6: [main] returns only after [server.serve] has been called and has
    returned.  An exception that leaves [main] is either a client creation
    failure that is not an [Exception], in which case the server was never
    started, or the exception that [server.serve] raised. *)
Theorem main_outcome (s : State) :
  match main s with
  | (Ok _, s') =>
      ∃ tr w v, trace s' = tr ++ [EvServe "streamable-http" false "critical"] ∧
        server_serve "streamable-http" false "critical" w = (Ok v, world s')
  | (Raise e, s') =>
      (exn_is_Exception e = false ∧ get_client (after_banner s) = (Raise e, s'))
      ∨ (∃ tr w, trace s' = tr ++ [EvServe "streamable-http" false "critical"] ∧
           server_serve "streamable-http" false "critical" w = (Raise e, world s'))
  end.
Proof.
  rewrite main_unfold. fold (after_banner s).
  destruct (get_client (after_banner s)) as [[c|e] s1]; unfold serving; simpl.
  - destruct (server_serve _ _ _ (world s1)) as [[v|e] w'] eqn:Hs; simpl.
    + by eexists _, _, _.
    + right. by eexists _, _.
  - destruct (exn_is_Exception e) eqn:Hexn; [|by left].
    destruct (server_serve _ _ _ (world s1)) as [[v|e'] w'] eqn:Hs; simpl.
    + by eexists _, _, _.
    + right. by eexists _, _.
Qed.

(** X7: after a startup in which the client could not be created,
    [sf_client] is still unset, and the first tool call made once the
    constructor works creates the client and goes through with its method
    call: "tools may fail until client is configured properly". *)
Theorem tool_after_failed_startup (s : State) (e : PyExn) (w : World) :
  sf_client s = None →
  SalesforceClient true (world s) = (Raise e, w) →
  exn_is_Exception e = true →
  sf_client (main s).2 = None ∧
  ∀ (t : ToolCall) (w1 w2 : World) (c : Client),
    SalesforceClient true w1 = (Ok c, w2) →
    invoke t (mkState (sf_client (main s).2) w1 (trace (main s).2)) =
      let '(r, w3) := method_impl c (client_method_of t) w2 in
      (match r with
       | Ok v => Ok (if passes_result_through t then v else PBool true)
       | Raise e' => Raise e'
       end,
       mkState (Some c) w3
         (trace (main s).2 ++ [EvConstruct true; EvCall c (client_method_of t)])).
Proof.
  intros Hnone Hinit Hexn.
  rewrite main_unfold, get_client_none by done. simpl.
  rewrite Hinit, Hexn. unfold serving. simpl.
  destruct (server_serve _ _ _ w) as [r w'] eqn:Hs. simpl.
  split; [done|]. intros t w1 w2 c Hfix.
  rewrite invoke_unfold, get_client_none by done. simpl. rewrite Hfix. simpl.
  destruct (method_impl c (client_method_of t) w2) as [[v|e'] w3]; simpl;
    by rewrite <- !app_assoc.
Qed.

(** X8: calling [get_client] twice in a row is the same as calling it
    once. *)
Theorem get_client_twice (s : State) :
  bind get_client (λ _, get_client) s = get_client s.
Proof.
  unfold bind. destruct (get_client s) as [[c|e] s1] eqn:Hget; [|done].
  apply get_client_some. by apply get_client_ok in Hget.
Qed.

(** X9: with the client in place, the method calls in the log are the tool
    invocations, one for one and in the order made, whether they returned
    or raised: nothing is cached, retried, skipped or reordered, and the
    client is never created anew.  Each call runs on the world the
    previous one left. *)
Theorem calls_logged_in_order (ts : list ToolCall) (s : State) (c : Client) :
  sf_client s = Some c →
  sf_client (run_calls ts s) = Some c ∧
  world (run_calls ts s) = world_after c ts (world s) ∧
  trace (run_calls ts s) = trace s ++ ((λ t, EvCall c (client_method_of t)) <$> ts).
Proof.
  revert s. induction ts as [|t ts IH]; intros s Hc; simpl.
  - by rewrite app_nil_r.
  - destruct (invoke_with_client t s c Hc) as (Hc' & Hw & Htr).
    destruct (IH _ Hc') as (Hc'' & Hw'' & Htr''). split; [done|]. split.
    + by rewrite Hw'', Hw.
    + by rewrite Htr'', Htr, <- app_assoc.
Qed.

(** Each step adds only events that are not constructor calls without
    authentication. *)
Lemma step_constructs_with_auth (s s' : State) :
  step s s' →
  Forall (λ ev, ev ≠ EvConstruct false) (trace s) →
  Forall (λ ev, ev ≠ EvConstruct false) (trace s').
Proof.
  intros Hstep Hall. destruct Hstep as [t s | s | s | s w].
  - rewrite invoke_unfold. destruct (sf_client s) as [c|] eqn:Hc.
    + rewrite (get_client_some s c Hc).
      destruct (method_impl c (client_method_of t) (world s)) as [[v|e] w]; simpl;
        (apply Forall_app; split; [done | by repeat constructor]).
    + rewrite (get_client_none s Hc).
      destruct (SalesforceClient true (world s)) as [[c|e] w]; simpl.
      * destruct (method_impl c (client_method_of t) w) as [[v|e] w']; simpl;
          rewrite !Forall_app; (split; [split|]; [done|..]; by repeat constructor).
      * apply Forall_app; split; [done | by repeat constructor].
  - destruct (sf_client s) as [c|] eqn:Hc.
    + by rewrite (get_client_some s c Hc).
    + rewrite (get_client_none s Hc).
      destruct (SalesforceClient true (world s)) as [[c|e] w]; simpl;
        (apply Forall_app; split; [done | by repeat constructor]).
  - assert (Forall (λ ev, ev ≠ EvConstruct false) (trace (after_banner s))) as Hb.
    { simpl. apply Forall_app; split; [done | by repeat constructor]. }
    assert (Forall (λ ev, ev ≠ EvConstruct false) (trace (get_client (after_banner s)).2))
      as Hg.
    { destruct (sf_client (after_banner s)) as [c|] eqn:Hc.
      - by rewrite (get_client_some _ c Hc).
      - rewrite (get_client_none _ Hc).
        destruct (SalesforceClient true _) as [[c|e] w];
          (apply Forall_app; split; [done | by repeat constructor]). }
    rewrite main_unfold. fold (after_banner s).
    destruct (get_client (after_banner s)) as [[c|e] s1]; simpl in Hg;
      unfold serving; simpl.
    + destruct (server_serve _ _ _ _) as [[v|e] w]; simpl;
        rewrite !Forall_app; (split; [split|]; [done|..]; by repeat constructor).
    + destruct (exn_is_Exception e); [|done].
      destruct (server_serve _ _ _ _) as [[v|e'] w]; simpl;
        rewrite !Forall_app; (split; [split|]; [done|..]; by repeat constructor).
  - done.
Qed.

(** X10: whatever the process does after the module is loaded, every
    client it creates is created with [auto_auth=True]. *)
Theorem client_always_created_with_auto_auth (w : World) (s : State) :
  rtc step (initial w) s →
  ∀ auto_auth, EvConstruct auto_auth ∈ trace s → auto_auth = true.
Proof.
  intros Hrun.
  cut (Forall (λ ev, ev ≠ EvConstruct false) (trace s)).
  { intros Hall [|] Hin; [done|]. rewrite Forall_forall in Hall.
    by destruct (Hall _ Hin). }
  revert s Hrun. apply rtc_ind_r; [by constructor|].
  intros s1 s2 _ Hstep IH. by eapply step_constructs_with_auth.
Qed.

End AdapterMore.

(** * The properties that rest on the client and the remote CRM *)

Section CrmFacts.
Import Crm.

Lemma append_cons (a : Ascii.ascii) (text post : string) :
  String a text +:+ post = String a (text +:+ post).
Proof. reflexivity. Qed.

Lemma append_empty (post : string) : EmptyString +:+ post = post.
Proof. reflexivity. Qed.

Lemma prefix_spec (term text : string) :
  String.prefix term text = true ↔ ∃ post, text = term +:+ post.
Proof.
  revert text. induction term as [|a term IH]; intros text.
  - destruct text; simpl; (split; [intros _; by eexists | done]).
  - destruct text as [|b text]; simpl.
    + split; [done | by intros (post & ?)].
    + destruct (Ascii.ascii_dec a b) as [->|Hne].
      * rewrite IH. split; intros (post & Heq); exists post;
          rewrite append_cons in *; congruence.
      * split; [done | intros (post & Heq); rewrite append_cons in Heq; congruence].
Qed.

(** [contains] decides the substring relation. *)
Lemma contains_spec (term text : string) :
  contains term text = true ↔ ∃ pre post, text = pre +:+ term +:+ post.
Proof.
  induction text as [|b text IH].
  - change (contains term EmptyString)
      with (String.prefix term EmptyString || false).
    rewrite orb_false_r, prefix_spec. split.
    + intros (post & ->). by exists EmptyString, post.
    + intros (pre & post & Heq). destruct pre; [by exists post|done].
  - change (contains term (String b text))
      with (String.prefix term (String b text) || contains term text).
    rewrite orb_true_iff, prefix_spec, IH. split.
    + intros [(post & Heq) | (pre & post & ->)].
      * by exists EmptyString, post.
      * by exists (String b pre), post.
    + intros (pre & post & Heq). destruct pre as [|a pre].
      * left. by exists post.
      * right. exists pre, post. rewrite append_cons in Heq. congruence.
Qed.

Lemma matches_spec (term : string) (r : record) :
  matches term r = true ↔
  ∃ field text, r !! field = Some (PStr text) ∧ contains term text = true.
Proof.
  unfold matches. rewrite existsb_exists. split.
  - intros ([k v] & Hin & Hv). simpl in Hv. destruct v; try done.
    exists k, s. split; [|done].
    by apply elem_of_map_to_list, list_elem_of_In.
  - intros (k & text & Hk & Hc). exists (k, PStr text). split; [|done].
    by apply list_elem_of_In, elem_of_map_to_list.
Qed.

(** [get_client] in front of the modelled client. *)
Lemma crm_get_client (s : State) :
  get_client s =
    match sf_client s with
    | Some c => (Ok c, s)
    | None =>
        if credentials (world s)
        then (Ok tt,
              mkState (Some tt)
                (mkRemote true true (accounts (world s)) (opportunities (world s))
                   (contacts (world s)))
                (trace s ++ [EvConstruct true]))
        else (Raise AuthError, mkState None (world s) (trace s ++ [EvConstruct true]))
    end.
Proof.
  destruct (sf_client s) as [c|] eqn:Hc.
  - by apply get_client_some.
  - rewrite (get_client_none s Hc). simpl. unfold init.
    by destruct (credentials (world s)).
Qed.

(** What a search answers, for any term and limit. *)
Lemma crm_search_result (term : string) (limit : Z) (s : State) (v : PyVal) :
  (search_accounts term (Given limit) s).1 = Ok v →
  ∃ rs : list record,
    v = PList (PDict <$> rs) ∧ (length rs ≤ Z.to_nat limit)%nat ∧
    ∀ r, r ∈ rs → matches term r = true.
Proof.
  pose proof (invoke_unfold (TSearchAccounts term (Given limit)) s) as Hinv.
  simpl in Hinv. rewrite Hinv. clear Hinv.
  destruct (get_client s) as [[c|e] s1]; [|done].
  unfold search, authenticated_call. destruct (authenticated (world s1)); [|done].
  simpl. intros [= <-]. eexists. split; [done|]. split.
  - rewrite length_take. lia.
  - intros r Hr. apply subseteq_take in Hr.
    apply list_elem_of_In, filter_In in Hr. tauto.
Qed.

(** C6: [search_accounts("Inc", 5)], when it returns, returns a list of
    at most 5 records, and each of them has a text field in which "Inc"
    occurs. *)
Theorem search_inc_at_most_five (s : @State Crm.collaborators) (v : PyVal) :
  (search_accounts "Inc" (Given 5) s).1 = Ok v →
  ∃ rs : list record,
    v = PList (PDict <$> rs) ∧ (length rs ≤ 5)%nat ∧
    ∀ r, r ∈ rs →
      ∃ field text pre post,
        r !! field = Some (PStr text) ∧ text = pre +:+ "Inc" +:+ post.
Proof.
  intros Hret. destruct (crm_search_result _ _ _ _ Hret) as (rs & -> & Hlen & Hall).
  exists rs. split; [done|]. split; [exact Hlen|].
  intros r Hr. apply Hall, matches_spec in Hr as (field & text & Hf & Hc).
  apply contains_spec in Hc as (pre & post & ->).
  by exists field, (pre +:+ "Inc" +:+ post), pre, post.
Qed.

(** C7: when [create_account] returns, what it returns is an identifier,
    and a [get_account_by_id] with that identifier right afterwards
    succeeds with a record that carries every submitted field that the
    call retrieves (all of them when [fields] is left out). *)
Theorem create_then_get (s s1 : @State Crm.collaborators) (account_data : record)
    (v : PyVal) (fields : Arg (option (list string))) :
  create_account account_data s = (Ok v, s1) →
  ∃ (new_id : string) (r : record),
    v = PStr new_id ∧
    (get_account_by_id new_id fields s1).1 = Ok (PDict r) ∧
    ∀ k x, account_data !! k = Some x → retrieved fields k → r !! k = Some x.
Proof.
  pose proof (invoke_unfold (TCreateAccount account_data) s) as Hinv.
  simpl in Hinv. rewrite Hinv. clear Hinv.
  destruct (get_client s) as [[c|e] s0] eqn:Hget; [|done].
  pose proof (get_client_ok _ _ _ Hget) as Hc.
  unfold create, authenticated_call.
  destruct (authenticated (world s0)) eqn:Hauth; [|done].
  destruct (creatable account_data) eqn:Hok; [|done].
  intros [= <- <-].
  apply andb_prop in Hok as [_ Hid]. apply bool_decide_eq_true in Hid.
  set (new_id := fresh (dom (accounts (world s0)))).
  exists new_id, (project (or_default None fields) (<["Id" := PStr new_id]> account_data)).
  split; [done|]. split.
  - pose proof (invoke_unfold (TGetAccountById new_id fields)) as Hinv.
    simpl in Hinv. rewrite Hinv. clear Hinv.
    rewrite (get_client_some _ c) by done. simpl.
    unfold get_by_id, authenticated_call. simpl.
    by rewrite lookup_insert_eq.
  - intros k x Hk Hretr.
    assert (k ≠ "Id") as Hne by (intros ->; congruence).
    unfold retrieved in Hretr. destruct (or_default None fields) as [fs|]; simpl.
    + apply map_lookup_filter_Some. split; [|done]. by rewrite lookup_insert_ne.
    + by rewrite lookup_insert_ne.
Qed.

Lemma get_unavailable (s : @State Crm.collaborators) (account_id : string)
    (fields : Arg (option (list string))) :
  unavailable account_id s →
  ∃ e, (get_account_by_id account_id fields s).1 = Raise e.
Proof.
  unfold unavailable. intros Hun.
  pose proof (invoke_unfold (TGetAccountById account_id fields) s) as Hget.
  simpl in Hget. rewrite Hget, crm_get_client. clear Hget.
  destruct (sf_client s) as [c|].
  - unfold get_by_id, authenticated_call.
    destruct (authenticated (world s)); [|by eexists].
    destruct Hun as [?| ->]; [done | by eexists].
  - destruct (credentials (world s)); [|by eexists].
    unfold get_by_id, authenticated_call. simpl.
    destruct Hun as [?| ->]; [done | by eexists].
Qed.

(** After [delete_account(id)], whatever its outcome, the record is
    unavailable. *)
Lemma delete_makes_unavailable (s : @State Crm.collaborators) (account_id : string) :
  unavailable account_id (delete_account account_id s).2.
Proof.
  pose proof (invoke_unfold (TDeleteAccount account_id) s) as Hdel.
  simpl in Hdel. rewrite Hdel, crm_get_client. clear Hdel.
  unfold unavailable, remove, authenticated_call.
  destruct (sf_client s) as [c|] eqn:Hc.
  - destruct (authenticated (world s)) eqn:Hauth; simpl.
    + destruct (accounts (world s) !! account_id) as [r|] eqn:Hr; simpl;
        rewrite Hc; right; [apply lookup_delete_eq | done].
    + rewrite Hc. by left.
  - destruct (credentials (world s)) eqn:Hcred; simpl; [|by left].
    destruct (accounts (world s) !! account_id) as [r|] eqn:Hr; simpl;
      right; [apply lookup_delete_eq | done].
Qed.

(** C8: for every identifier, a [get_account_by_id] that follows
    [delete_account] on it fails or returns an empty record. *)
Theorem delete_then_get (s : @State Crm.collaborators) (account_id : string)
    (fields : Arg (option (list string))) :
  (∃ e, (get_account_by_id account_id fields (delete_account account_id s).2).1
        = Raise e) ∨
  (get_account_by_id account_id fields (delete_account account_id s).2).1
  = Ok (PDict ∅).
Proof. left. apply get_unavailable, delete_makes_unavailable. Qed.

End CrmFacts.

(** * Properties of the test script *)

Section TestFacts.
Import Tests.
Context `{Env}.

Ltac trun :=
  unfold bind, ret, print, lift, call, environ, get_test_account_id,
    set_test_account_id; simpl.

Lemma contains_ret {A} (a : A) : contains_exceptions (ret a).
Proof. by intros s. Qed.

Lemma contains_print (line : string) : contains_exceptions (print line).
Proof. by intros s. Qed.

Lemma contains_bind {A B} (m : T A) (k : A → T B) :
  contains_exceptions m → (∀ a, contains_exceptions (k a)) →
  contains_exceptions (bind m k).
Proof.
  intros Hm Hk s. unfold bind. specialize (Hm s).
  destruct (m s) as [[a|e] s1]; simpl in *; [apply Hk | done].
Qed.

(** Whatever the body of a [try] does, only what the handler lets out and
    what [except Exception] does not catch can leave the statement. *)
Lemma contains_try {A} (body : T A) (handler : PyExn → T A) :
  (∀ e, contains_exceptions (handler e)) →
  contains_exceptions (try_except body handler).
Proof.
  intros Hh s. unfold try_except.
  destruct (body s) as [[a|e] s1]; simpl; [done|].
  destruct (exn_is_Exception e) eqn:He; [apply Hh | done].
Qed.

Lemma contains_environ (name : string) : contains_exceptions (environ name).
Proof. by intros s. Qed.

Lemma contains_get_test_account_id : contains_exceptions get_test_account_id.
Proof. by intros s. Qed.

Create HintDb contain.
#[local] Hint Resolve contains_ret contains_print contains_environ
  contains_get_test_account_id : contain.

Ltac contain :=
  repeat first
    [ apply contains_try; intros
    | apply contains_bind; [|intros]
    | progress auto with contain
    | match goal with |- contains_exceptions (if ?b then _ else _) => destruct b end
    | match goal with |- contains_exceptions (match ?x with _ => _ end) => destruct x end ].

Lemma contains_run_tests (ts : list (string * T bool)) (results : list (string * bool)) :
  contains_exceptions (run_tests ts results).
Proof.
  revert results. induction ts as [|[test_name test_func] ts IH]; intros results; simpl.
  - contain.
  - apply contains_bind; [contain | intros; apply IH].
Qed.

Lemma contains_print_results (results : list (string * bool)) :
  contains_exceptions (print_results results).
Proof. induction results as [|[test_name result] rest IH]; simpl; contain. Qed.

(** X11: no [Exception] leaves [setup], any of the five test methods or
    [run_all_tests], whatever the client does or returns; only an
    exception that is not an [Exception] can get out of them. *)
Theorem test_methods_contain_exceptions :
  contains_exceptions setup ∧
  contains_exceptions test_get_accounts ∧
  contains_exceptions test_get_account_by_id ∧
  contains_exceptions test_search_accounts ∧
  contains_exceptions test_create_and_delete_account ∧
  contains_exceptions test_get_related_records ∧
  contains_exceptions run_all_tests.
Proof.
  assert (contains_exceptions setup) as Hsetup by (unfold setup; contain).
  repeat split; [done|..].
  - unfold test_get_accounts. contain.
  - unfold test_get_account_by_id. contain.
  - unfold test_search_accounts. contain.
  - unfold test_create_and_delete_account. contain.
  - unfold test_get_related_records. contain.
  - unfold run_all_tests.
    do 3 (apply contains_bind; [contain | intros]).
    apply contains_bind; [done | intros ready].
    destruct ready; cbn [negb]; [|contain].
    apply contains_bind; [apply contains_run_tests | intros results].
    do 3 (apply contains_bind; [contain | intros]).
    apply contains_bind; [apply contains_print_results | intros]. contain.
Qed.

Lemma calls_app (out out' : list Event) : calls (out ++ out') = calls out ++ calls out'.
Proof. apply List.filter_app. Qed.

(** X12: in the create/update/delete test, once [create_account] has
    returned an id, [update_account] and then [delete_account] are called
    on that id, and the verdict is that of the delete alone: a failed
    update is printed and otherwise ignored. *)
Theorem create_update_delete_verdict (s : State) (created : PyVal)
    (updated deleted : Outcome PyVal) (w1 w2 w3 : Outside) :
  let c := client (self s) in
  method c "create_account" [PDict test_account_data] [] (outside s) = (Ok created, w1) →
  method c "update_account" [created; PDict update_data] [] w1 = (updated, w2) →
  catchable updated →
  method c "delete_account" [created] [] w2 = (deleted, w3) →
  catchable deleted →
  (test_create_and_delete_account s).1 = Ok (returned deleted) ∧
  outside (test_create_and_delete_account s).2 = w3 ∧
  self (test_create_and_delete_account s).2 = self s ∧
  calls (log (test_create_and_delete_account s).2) =
    calls (log s) ++
    [Call c "create_account" [PDict test_account_data] [];
     Call c "update_account" [created; PDict update_data] [];
     Call c "delete_account" [created] []].
Proof.
  intros c Hcreate Hupdate Hcu Hdelete Hcd. subst c.
  unfold test_create_and_delete_account, try_except. trun.
  rewrite Hcreate. simpl. rewrite Hupdate.
  destruct updated as [v|e]; simpl in *; rewrite ?Hcu; simpl; rewrite Hdelete;
    destruct deleted as [v'|e']; simpl in *; rewrite ?Hcd; simpl;
    (repeat split; [done..|]);
    rewrite !calls_app; simpl; by rewrite ?app_nil_r, <- ?app_assoc.
Qed.

(** X13: when [create_account] raises an [Exception], the
    create/update/delete test prints the failure and answers [False]
    without calling [update_account] or [delete_account]. *)
Theorem create_failure_ends_test (s : State) (e : PyExn) (w1 : Outside) :
  method (client (self s)) "create_account" [PDict test_account_data] [] (outside s)
    = (Raise e, w1) →
  exn_is_Exception e = true →
  test_create_and_delete_account s =
    (Ok false,
     mkState (self s) w1
       (log s ++
        [Print (nl +:+ "➕ Test: Create Account");
         Call (client (self s)) "create_account" [PDict test_account_data] [];
         Print ("❌ Create failed: " +:+ exn_str e)])).
Proof.
  intros Hcreate He.
  unfold test_create_and_delete_account, try_except. trun.
  rewrite Hcreate. simpl. rewrite He. simpl. by rewrite <- !app_assoc.
Qed.

(** X14: while the object remembers no account id (none was stored, or a
    false one like [None] or the empty string), [test_get_account_by_id]
    and [test_get_related_records] print that they are skipped and answer
    [True] without calling the client. *)
Theorem tests_skipped_without_account_id (s : State) :
  truthy (test_account_id (self s)) = false →
  test_get_account_by_id s =
    (Ok true,
     mkState (self s) (outside s)
       (log s ++
        [Print (nl +:+ "⏭️  Skipping test_get_account_by_id (no account ID available)")])) ∧
  test_get_related_records s =
    (Ok true,
     mkState (self s) (outside s)
       (log s ++
        [Print (nl +:+ "⏭️  Skipping test_get_related_records (no account ID available)")])).
Proof.
  intros Hid. unfold test_get_account_by_id, test_get_related_records. trun.
  by rewrite Hid.
Qed.

(** X15: [test_get_accounts] asks for five accounts.  On a list whose
    first element is a record it answers [True] and stores that record's
    [Id] ([None] when the record has none); on an empty list it answers
    [True] and stores nothing; when the call raises an [Exception] it
    answers [False] and stores nothing.  The client attribute is never
    touched. *)
Theorem get_accounts_remembers_first_id (s : State) (r : Outcome PyVal) (w1 : Outside) :
  method (client (self s)) "get_accounts" [] [("limit", PInt 5)] (outside s) = (r, w1) →
  catchable r →
  client (self (test_get_accounts s).2) = client (self s) ∧
  match r with
  | Ok (PList (PDict first :: _)) =>
      (test_get_accounts s).1 = Ok true ∧
      test_account_id (self (test_get_accounts s).2) = default PNone (first !! "Id")
  | Ok (PList []) =>
      (test_get_accounts s).1 = Ok true ∧
      test_account_id (self (test_get_accounts s).2) = test_account_id (self s)
  | Raise _ =>
      (test_get_accounts s).1 = Ok false ∧
      test_account_id (self (test_get_accounts s).2) = test_account_id (self s)
  | _ => True
  end.
Proof.
  intros Hcall Hr. unfold test_get_accounts, try_except. trun. rewrite Hcall.
  destruct r as [v|e]; simpl in *.
  - destruct v as [| | | s0 |l|d]; simpl; try done.
    + by destruct s0.
    + destruct l as [|x l]; simpl; [done|]. by destruct x.
    + by destruct (size d).
  - by rewrite Hr.
Qed.

(** X16: [setup] answers [True] exactly when both
    [SALESFORCE_CLIENT_ID] and [SALESFORCE_CLIENT_SECRET] are set to
    non-empty strings and [authenticate_client_credentials] returns a
    dict; the client is called only when both variables are set. *)
Theorem setup_verdict (s : State) (r : Outcome PyVal) (w1 : Outside) :
  let configured :=
    env_truthy (environ_get "SALESFORCE_CLIENT_ID" (outside s)) &&
    env_truthy (environ_get "SALESFORCE_CLIENT_SECRET" (outside s)) in
  method (client (self s)) "authenticate_client_credentials" [] [] (outside s) = (r, w1) →
  (configured = true → catchable r) →
  (setup s).1 =
    Ok (configured && match r with Ok v => is_dict v | Raise _ => false end) ∧
  calls (log (setup s).2) =
    calls (log s) ++
    (if configured
     then [Call (client (self s)) "authenticate_client_credentials" [] []]
     else []).
Proof.
  intros configured Hcall Hr. subst configured.
  unfold setup, try_except. trun. rewrite andb_true_r.
  destruct (env_truthy (environ_get "SALESFORCE_CLIENT_ID" (outside s))
            && env_truthy (environ_get "SALESFORCE_CLIENT_SECRET" (outside s)));
    simpl.
  - rewrite Hcall. specialize (Hr eq_refl). destruct r as [v|e]; simpl in *.
    + destruct v; simpl; rewrite !calls_app; simpl;
        by rewrite ?app_nil_r, <- ?app_assoc.
    + rewrite Hr. simpl. rewrite !calls_app. simpl.
      by rewrite ?app_nil_r, <- ?app_assoc.
  - rewrite !calls_app. simpl. by rewrite !app_nil_r.
Qed.

(** The second half of [test_get_related_records] decides alone. *)
Lemma summarised_contacts (s : State) (contacts : Outcome PyVal) (w : Outside)
    (account_id : PyVal) :
  method (client (self s)) "get_account_contacts" [account_id] [("limit", PInt 5)]
    (outside s) = (contacts, w) →
  catchable contacts →
  let m :=
    try_except
      (bind (call "get_account_contacts" [account_id] [("limit", PInt 5)])
         (λ contacts,
          bind (lift (py_len contacts)) (λ n,
          bind (print ("✅ Retrieved " +:+ pretty n +:+ " contacts")) (λ _,
          bind (if truthy contacts
                then bind (lift (py_first_get contacts "Name")) (λ name,
                     print ("   First contact: " +:+ py_str name))
                else ret tt) (λ _, ret true)))))
      (λ e, bind (print ("❌ Failed: " +:+ exn_str e)) (λ _, ret false)) in
  (m s).1 = Ok (summarised contacts) ∧ outside (m s).2 = w ∧
  calls (log (m s).2) =
    calls (log s) ++
    [Call (client (self s)) "get_account_contacts" [account_id] [("limit", PInt 5)]].
Proof.
  intros Hcall Hc m. subst m. unfold try_except, summarised. trun. rewrite Hcall.
  destruct contacts as [v|e]; simpl in *.
  - destruct (py_len v) as [n|e] eqn:Hlen; simpl.
    + destruct (truthy v); simpl.
      * destruct (py_first_get v "Name") as [x|e] eqn:Hfirst; simpl.
        -- rewrite !calls_app. simpl. by rewrite ?app_nil_r.
        -- assert (exn_is_Exception e = true) as ->.
           { unfold py_first_get, py_first, py_get in Hfirst.
             repeat case_match; by simplify_eq. }
           simpl. rewrite !calls_app. simpl. by rewrite ?app_nil_r.
      * rewrite !calls_app. simpl. by rewrite ?app_nil_r.
    + assert (exn_is_Exception e = true) as ->.
      { unfold py_len in Hlen. repeat case_match; by simplify_eq. }
      simpl. rewrite !calls_app. simpl. by rewrite ?app_nil_r.
  - rewrite Hc. simpl. rewrite !calls_app. simpl. by rewrite ?app_nil_r.
Qed.

(** X17: with an account id in hand, [test_get_related_records] asks for
    the opportunities and then for the contacts of that account; what
    happens to the opportunities (an [Exception], an unusable value) is
    printed and otherwise ignored, and the verdict is whether the contacts
    call returned something the test can summarise. *)
Theorem related_records_verdict (s : State) (opportunities contacts : Outcome PyVal)
    (w1 w2 : Outside) :
  let c := client (self s) in
  let account_id := test_account_id (self s) in
  truthy account_id = true →
  method c "get_account_opportunities" [account_id] [("limit", PInt 5)] (outside s)
    = (opportunities, w1) →
  catchable opportunities →
  method c "get_account_contacts" [account_id] [("limit", PInt 5)] w1 = (contacts, w2) →
  catchable contacts →
  (test_get_related_records s).1 = Ok (summarised contacts) ∧
  outside (test_get_related_records s).2 = w2 ∧
  calls (log (test_get_related_records s).2) =
    calls (log s) ++
    [Call c "get_account_opportunities" [account_id] [("limit", PInt 5)];
     Call c "get_account_contacts" [account_id] [("limit", PInt 5)]].
Proof.
  intros c account_id Hid Hopp Ho Hcon Hc. subst c account_id.
  remember (test_get_related_records s) as res eqn:Heq.
  unfold test_get_related_records in Heq.
  unfold bind at 1 in Heq. unfold get_test_account_id at 1 in Heq. simpl in Heq.
  rewrite Hid in Heq. simpl in Heq.
  unfold bind at 1 in Heq. unfold print at 1 in Heq. simpl in Heq.
  unfold bind at 1 in Heq.
  match type of Heq with
  | context [try_except ?body ?handler ?st] =>
      assert (∃ out, try_except body handler st =
                (Ok tt, mkState (self s) w1 out) ∧
                calls out = calls (log s) ++
                  [Call (client (self s)) "get_account_opportunities"
                     [test_account_id (self s)] [("limit", PInt 5)]])
        as (out & Hfirst_half & Hout)
  end.
  { unfold try_except. trun. rewrite Hopp.
    destruct opportunities as [v|e]; simpl in *.
    - destruct (py_len v) as [n|e] eqn:Hlen; simpl.
      + destruct (truthy v); simpl.
        * destruct (py_first_get v "Name") as [x|e] eqn:Hfirst; simpl.
          -- eexists. split; [done|]. rewrite !calls_app. simpl.
             by rewrite ?app_nil_r.
          -- assert (exn_is_Exception e = true) as ->.
             { unfold py_first_get, py_first, py_get in Hfirst.
               repeat case_match; by simplify_eq. }
             eexists. split; [done|]. rewrite !calls_app. simpl.
             by rewrite ?app_nil_r.
        * eexists. split; [done|]. rewrite !calls_app. simpl.
          by rewrite ?app_nil_r.
      + assert (exn_is_Exception e = true) as ->.
        { unfold py_len in Hlen. repeat case_match; by simplify_eq. }
        eexists. split; [done|]. rewrite !calls_app. simpl. by rewrite ?app_nil_r.
    - rewrite Ho. eexists. split; [done|]. rewrite !calls_app. simpl.
      by rewrite ?app_nil_r. }
  rewrite Hfirst_half in Heq.
  unfold bind at 1 in Heq. unfold print at 1 in Heq. simpl in Heq.
  match type of Heq with
  | context [try_except _ _ ?st] =>
      destruct (summarised_contacts st contacts w2 (test_account_id (self s)))
        as (Hres & Hw & Hcalls); [done..|]
  end.
  rewrite Heq. split; [exact Hres|]. split; [exact Hw|].
  etrans; [exact Hcalls|]. simpl. rewrite calls_app, Hout. simpl.
  by rewrite app_nil_r, <- app_assoc.
Qed.

Lemma py_len_raises_Exception (v : PyVal) (e : PyExn) :
  py_len v = Raise e → exn_is_Exception e = true.
Proof. unfold py_len. intros Hlen. repeat case_match; by simplify_eq. Qed.

Lemma py_first_get_raises_Exception (v : PyVal) (key : string) (e : PyExn) :
  py_first_get v key = Raise e → exn_is_Exception e = true.
Proof.
  unfold py_first_get, py_first, py_get. intros Hget.
  repeat case_match; by simplify_eq.
Qed.

(** X23: [test_search_accounts] searches for "Inc" with [limit=5] once and
    answers [True] whenever the call returns something it can summarise
    (a value with a length and, unless it is empty, a first element with
    [get]); it answers [False] when the call raises an [Exception].  It
    checks neither the number of results nor that they match. *)
Theorem search_test_verdict (s : State) (r : Outcome PyVal) (w1 : Outside) :
  method (client (self s)) "search_accounts" [PStr "Inc"] [("limit", PInt 5)] (outside s)
    = (r, w1) →
  catchable r →
  (test_search_accounts s).1 = Ok (summarised r) ∧
  outside (test_search_accounts s).2 = w1 ∧
  self (test_search_accounts s).2 = self s ∧
  calls (log (test_search_accounts s).2) =
    calls (log s) ++
    [Call (client (self s)) "search_accounts" [PStr "Inc"] [("limit", PInt 5)]].
Proof.
  intros Hcall Hr. unfold test_search_accounts, try_except, summarised. trun.
  rewrite Hcall. destruct r as [v|e]; simpl in *.
  - destruct (py_len v) as [n|e] eqn:Hlen; simpl.
    + destruct (truthy v); simpl.
      * destruct (py_first_get v "Name") as [x|e] eqn:Hfirst; simpl.
        -- repeat split. rewrite !calls_app. simpl. by rewrite ?app_nil_r.
        -- rewrite (py_first_get_raises_Exception _ _ _ Hfirst). simpl.
           repeat split. rewrite !calls_app. simpl. by rewrite ?app_nil_r.
      * repeat split. rewrite !calls_app. simpl. by rewrite ?app_nil_r.
    + rewrite (py_len_raises_Exception _ _ Hlen). simpl.
      repeat split. rewrite !calls_app. simpl. by rewrite ?app_nil_r.
  - rewrite Hr. simpl. repeat split. rewrite !calls_app. simpl.
    by rewrite ?app_nil_r.
Qed.

(** X24: with an account id in hand, [test_get_account_by_id] asks the
    client once for that id and answers [True] exactly when a dict comes
    back; it does not look at what the dict holds.  Any other value, or an
    [Exception], gives [False]. *)
Theorem get_by_id_test_verdict (s : State) (r : Outcome PyVal) (w1 : Outside) :
  let account_id := test_account_id (self s) in
  truthy account_id = true →
  method (client (self s)) "get_account_by_id" [account_id] [] (outside s) = (r, w1) →
  catchable r →
  (test_get_account_by_id s).1 =
    Ok (match r with Ok v => is_dict v | Raise _ => false end) ∧
  outside (test_get_account_by_id s).2 = w1 ∧
  self (test_get_account_by_id s).2 = self s ∧
  calls (log (test_get_account_by_id s).2) =
    calls (log s) ++ [Call (client (self s)) "get_account_by_id" [account_id] []].
Proof.
  intros account_id Hid Hcall Hr. subst account_id.
  unfold test_get_account_by_id, try_except. trun. rewrite Hid. simpl.
  rewrite Hcall. destruct r as [v|e]; simpl in *.
  - destruct v; simpl; repeat split; rewrite !calls_app; simpl;
      by rewrite ?app_nil_r.
  - rewrite Hr. simpl. repeat split. rewrite !calls_app. simpl.
    by rewrite ?app_nil_r.
Qed.

(** X18: the loop of [run_all_tests] records exactly one result per
    test, in the order of the list, after those collected before; a test
    that raises an [Exception] is recorded too and does not stop the
    loop. *)
Theorem run_tests_records_every_test (ts : list (string * T bool))
    (collected results : list (string * bool)) (s s' : State) :
  run_tests ts collected s = (Ok results, s') →
  results.*1 = collected.*1 ++ ts.*1.
Proof.
  revert collected s. induction ts as [|[test_name test_func] ts IH];
    intros collected s; simpl.
  - intros [= <- <-]. by rewrite app_nil_r.
  - unfold bind at 1. unfold try_except. unfold bind at 1.
    destruct (test_func s) as [[result|e] s1]; simpl.
    + intros Hrest. rewrite (IH _ _ Hrest), fmap_app. simpl.
      by rewrite <- app_assoc.
    + destruct (exn_is_Exception e); [|done]. trun.
      intros Hrest. rewrite (IH _ _ Hrest), fmap_app. simpl.
      by rewrite <- app_assoc.
Qed.

Lemma passed_count_le (results : list (string * bool)) :
  (passed_count results ≤ length results)%nat.
Proof. apply List.filter_length_le. Qed.

(** [passed == total] says that every recorded result is [True]. *)
Lemma all_passed (results : list (string * bool)) :
  Nat.eqb (passed_count results) (length results) = true ↔
  Forall (λ r, r.2 = true) results.
Proof.
  rewrite Nat.eqb_eq. induction results as [|[name result] rest IH].
  - split; [by constructor | done].
  - unfold passed_count in *. simpl.
    pose proof (passed_count_le rest) as Hle. unfold passed_count in Hle.
    destruct result; simpl.
    + split.
      * intros Heq. constructor; [done|]. apply IH. lia.
      * intros Hall. apply Forall_cons in Hall as [_ Hall].
        apply IH in Hall. lia.
    + split; [lia|]. intros Hall. by apply Forall_cons in Hall as [? _].
Qed.

Lemma print_results_runs (results : list (string * bool)) (s : State) :
  ∃ out, print_results results s = (Ok tt, mkState (self s) (outside s) out).
Proof.
  revert s. induction results as [|[name result] rest IH]; intros s; simpl.
  - exists (log s). by destruct s.
  - trun.
    match goal with
    | |- context [print_results rest ?st] => destruct (IH st) as (out & ->)
    end.
    by exists out.
Qed.

Lemma bind_print {A} (line : string) (k : unit → T A) (s : State) :
  bind (print line) k s = k tt (mkState (self s) (outside s) (log s ++ [Print line])).
Proof. reflexivity. Qed.

(** X19: when [run_all_tests] returns, it returns [True] exactly when
    [setup] answered [True] and every result that the loop over the tests
    recorded is [True]; a failed setup or a single failed or crashed test
    makes it [False]. *)
Theorem suite_verdict (s s' : State) (verdict : bool) :
  run_all_tests s = (Ok verdict, s') →
  (verdict = true ↔
   ∃ s1 results s2,
     setup (after_header s) = (Ok true, s1) ∧
     run_tests tests [] s1 = (Ok results, s2) ∧
     Forall (λ r, r.2 = true) results).
Proof.
  unfold run_all_tests. rewrite !bind_print.
  match goal with
  | |- context [bind setup _ ?st] =>
      replace st with (after_header s)
        by (unfold after_header; cbn [self outside log]; by rewrite <- !app_assoc)
  end.
  unfold bind at 1.
  destruct (setup (after_header s)) as [[ready|e] s1]; [|done].
  destruct ready; cbn [negb].
  - unfold bind at 1.
    destruct (run_tests tests [] s1) as [[results|e] s2] eqn:Hloop; [|done].
    rewrite !bind_print. unfold bind at 1.
    match goal with
    | |- context [print_results results ?st] =>
        destruct (print_results_runs results st) as (out & ->)
    end.
    rewrite !bind_print. unfold ret. intros [= <- <-]. rewrite all_passed. split.
    + intros Hall. by exists s1, results, s2.
    + intros (s1' & results' & s2' & [= <-] & Hloop' & Hall). congruence.
  - rewrite bind_print. unfold ret. intros [= <- <-]. split; [done|].
    by intros (s1' & results' & s2' & [=] & _).
Qed.

Lemma bind_ok {A B} (m : T A) (k : A → T B) (s s1 : State) (a : A) :
  m s = (Ok a, s1) → bind m k s = k a s1.
Proof. intros Hm. unfold bind. by rewrite Hm. Qed.

Lemma setup_unconfigured (s : State) :
  env_truthy (environ_get "SALESFORCE_CLIENT_ID" (outside s)) &&
  env_truthy (environ_get "SALESFORCE_CLIENT_SECRET" (outside s)) = false →
  setup s =
    (Ok false,
     mkState (self s) (outside s)
       (log s ++
        [Print "🔧 Setting up test environment...";
         Print "❌ ERROR: Salesforce credentials not configured!";
         Print "Please set the following environment variables:";
         Print "  - SALESFORCE_CLIENT_ID";
         Print "  - SALESFORCE_CLIENT_SECRET";
         Print "  - SALESFORCE_INSTANCE_URL (optional)"])).
Proof.
  intros Henv. unfold setup, try_except. trun. rewrite andb_true_r, Henv. simpl.
  by rewrite <- !app_assoc.
Qed.

(** X22: when [SALESFORCE_CLIENT_ID] or [SALESFORCE_CLIENT_SECRET] is
    missing or empty, [run_all_tests] answers [False] without running a
    single test: the client is never called and the outside world is left
    as it was. *)
Theorem suite_aborts_without_credentials (s : State) :
  env_truthy (environ_get "SALESFORCE_CLIENT_ID" (outside s)) &&
  env_truthy (environ_get "SALESFORCE_CLIENT_SECRET" (outside s)) = false →
  (run_all_tests s).1 = Ok false ∧
  outside (run_all_tests s).2 = outside s ∧
  self (run_all_tests s).2 = self s ∧
  calls (log (run_all_tests s).2) = calls (log s).
Proof.
  intros Henv. unfold run_all_tests. rewrite !bind_print.
  erewrite bind_ok; [|by apply setup_unconfigured].
  cbn [negb]. rewrite bind_print. unfold ret. cbn [fst snd outside self log].
  repeat split. rewrite !calls_app. simpl. by rewrite !app_nil_r.
Qed.

(** X20: in mode [unit] or [all], once the [TestSalesforceClient] object
    is built and [run_all_tests] has returned, [main] ends the process
    with [sys.exit]: status 0 when the suite answered [True], status 1
    when it answered [False].  Mode [all] prints the integration notice
    before it exits, mode [unit] does not. *)
Theorem exit_status_is_suite_verdict (mode : Mode) (w w0 : Outside)
    (out0 : list Event) (tester s' : State) (verdict : bool) :
  runs_unit mode = true →
  env_file_exists w = false →
  init w [] = (Ok tester, w0, out0) →
  run_all_tests tester = (Ok verdict, s') →
  main mode w =
    (Raise (SystemExit (if verdict then 0 else 1)),
     outside s',
     if runs_integration mode then log s' ++ test_mcp_server_integration else log s').
Proof.
  intros Hunit Hfile Hinit Hrun. unfold main.
  rewrite Hfile, Hunit, Hinit, Hrun. by destruct (runs_integration mode).
Qed.

(** X21: in mode [integration], [main] builds no client and calls none:
    with no [.env] file to load it only prints the integration notice and
    ends the process with status 0. *)
Theorem integration_mode_exits_zero (w : Outside) :
  env_file_exists w = false →
  main integration_mode w = (Raise (SystemExit 0), w, test_mcp_server_integration).
Proof. intros Hfile. unfold main. by rewrite Hfile. Qed.

End TestFacts.

(** * The properties at work on concrete runs *)

Lemma tools_pass_client_result_witness :
  invoke (TSearchAccounts "Inc" (Given 5)) Runs.quiet
  = (Ok (PList []),
     Scripted.state (Some Scripted.the_client) []
       [EvConstruct true; EvCall Scripted.the_client (MSearchAccounts "Inc" 5)]).
Proof.
  exact (tools_pass_client_result (TSearchAccounts "Inc" (Given 5))
           Runs.quiet Runs.quiet_ready Scripted.the_client eq_refl eq_refl).
Defined.

Lemma client_errors_propagate_witness :
  invoke (TDeleteAccount "001A") Runs.broken
  = (Raise (Scripted.ValueError "no credentials"),
     Scripted.state None [Ok PNone] [EvConstruct true]).
Proof.
  apply client_errors_propagate. apply raises_in_constructor. reflexivity.
Defined.

Lemma lazy_singleton_witness :
  let later := (invoke (TGetAccounts Omitted Omitted) Runs.quiet_ready).2 in
  get_client later = (Ok Scripted.the_client, later) ∧ constructions (trace later) = 1%nat.
Proof.
  destruct (lazy_singleton Runs.quiet Runs.quiet_ready Scripted.the_client
              eq_refl eq_refl)
    as (_ & _ & Hlater).
  apply Hlater, rtc_once, step_invoke.
Defined.

Lemma startup_survives_client_failure_witness :
  main Runs.broken
  = (Ok tt,
     Scripted.state None []
       (startup_banner ++ [EvConstruct true] ++
        warning_lines (Scripted.ValueError "no credentials") ++
        [EvPrint EmptyString; EvServe "streamable-http" false "critical"])).
Proof.
  exact (startup_survives_client_failure Runs.broken
           (Scripted.ValueError "no credentials") [Ok PNone] eq_refl eq_refl eq_refl).
Defined.

Lemma failed_init_not_cached_witness :
  ∃ s1, get_client Runs.broken = (Raise (Scripted.ValueError "no credentials"), s1) ∧
        sf_client s1 = None ∧ (get_client s1).1 = Ok Scripted.the_client.
Proof.
  destruct (failed_init_not_cached Runs.broken
              (Scripted.ValueError "no credentials") [Ok PNone] eq_refl eq_refl)
    as (s1 & Hget & Hnone & Hlater).
  exists s1. split; [exact Hget|]. split; [exact Hnone|].
  destruct (Hlater s1 (rtc_refl _ _)) as [(c & Hc & _) | (_ & _ & Hretry)];
    [congruence|].
  injection Hget as <-.
  by rewrite (Hretry Scripted.the_client [] eq_refl).
Defined.

Lemma default_arguments_witness :
  get_accounts Omitted Omitted Runs.quiet
  = call Scripted.the_client (MGetAccounts 10 None) Runs.quiet_ready.
Proof.
  destruct (default_arguments Runs.quiet Runs.quiet_ready Scripted.the_client eq_refl)
    as (Hdefault & _).
  exact (Hdefault Omitted).
Defined.

Lemma search_inc_at_most_five_witness :
  ∃ rs : list record,
    PList [PDict Crm.acme] = PList (PDict <$> rs) ∧ (length rs ≤ 5)%nat ∧
    ∀ r, r ∈ rs →
      ∃ field text pre post,
        r !! field = Some (PStr text) ∧ text = pre +:+ "Inc" +:+ post.
Proof.
  apply (search_inc_at_most_five (Crm.start Crm.org)). vm_compute. reflexivity.
Defined.

Lemma create_then_get_witness :
  let after := (create_account Runs.test_account (Crm.start Crm.org)).2 in
  ∃ r : record,
    (get_account_by_id "0" Omitted after).1 = Ok (PDict r) ∧
    ∀ k x, Runs.test_account !! k = Some x → r !! k = Some x.
Proof.
  intros after.
  destruct (create_then_get (Crm.start Crm.org) after Runs.test_account
              (PStr "0") Omitted)
    as (new_id & r & Hid & Hget & Hfields).
  - rewrite (surjective_pairing (create_account _ _)). by f_equal.
  - injection Hid as <-. exists r. split; [exact Hget|].
    intros k x Hk. apply Hfields; [exact Hk | exact I].
Defined.

Lemma adapter_raises_nothing_of_its_own_witness :
  client_raises (TCreateAccount Runs.test_account) Runs.broken
    (Scripted.ValueError "no credentials")
    (Scripted.state None [Ok PNone] [EvConstruct true]).
Proof. apply adapter_raises_nothing_of_its_own. reflexivity. Defined.

Lemma mutating_tools_forward_one_call_witness :
  invoke (TUpdateAccount "001A" ∅) (Scripted.start [Ok PNone; Ok (PBool false)])
  = (Ok (PBool true),
     Scripted.state (Some Scripted.the_client) []
       [EvConstruct true; EvCall Scripted.the_client (MUpdateAccount "001A" ∅)]).
Proof.
  exact (mutating_tools_forward_one_call (TUpdateAccount "001A" ∅)
           (Scripted.start [Ok PNone; Ok (PBool false)])
           (Scripted.state (Some Scripted.the_client) [Ok (PBool false)]
              [EvConstruct true])
           Scripted.the_client (PBool false) [] eq_refl eq_refl eq_refl).
Defined.

Lemma startup_with_working_client_witness :
  main Runs.quiet
  = (Ok tt,
     Scripted.state (Some Scripted.the_client) []
       (startup_banner ++
        [EvConstruct true;
         EvPrint "✅ Salesforce client initialized successfully";
         EvPrint EmptyString;
         EvServe "streamable-http" false "critical"])).
Proof.
  exact (startup_with_working_client Runs.quiet Scripted.the_client
           [Ok (PList [])] eq_refl eq_refl).
Defined.

Lemma startup_interrupt_propagates_witness :
  main (Scripted.start [Raise Scripted.KeyboardInterrupt; Ok PNone])
  = (Raise Scripted.KeyboardInterrupt,
     Scripted.state None [Ok PNone] (startup_banner ++ [EvConstruct true])).
Proof.
  exact (startup_interrupt_propagates
           (Scripted.start [Raise Scripted.KeyboardInterrupt; Ok PNone])
           Scripted.KeyboardInterrupt [Ok PNone] eq_refl eq_refl eq_refl).
Defined.

Lemma tool_after_failed_startup_witness :
  (invoke (TGetAccounts Omitted Omitted)
     (Scripted.state (sf_client (main Runs.broken).2) [Ok PNone; Ok (PList [])]
        (trace (main Runs.broken).2))).1
  = Ok (PList []).
Proof.
  destruct (tool_after_failed_startup Runs.broken
              (Scripted.ValueError "no credentials") [Ok PNone]
              eq_refl eq_refl eq_refl) as [_ Hretry].
  exact (f_equal fst
           (Hretry (TGetAccounts Omitted Omitted) [Ok PNone; Ok (PList [])]
              [Ok (PList [])] Scripted.the_client eq_refl)).
Defined.

Lemma calls_logged_in_order_witness :
  trace (run_calls [TDeleteAccount "001A"; TGetAccountById "001A" Omitted]
           (Scripted.state (Some Scripted.the_client)
              [Ok PNone; Raise (Scripted.ValueError "NOT_FOUND")] []))
  = [EvCall Scripted.the_client (MDeleteAccount "001A");
     EvCall Scripted.the_client (MGetAccountById "001A" None)].
Proof.
  destruct (calls_logged_in_order
              [TDeleteAccount "001A"; TGetAccountById "001A" Omitted]
              (Scripted.state (Some Scripted.the_client)
                 [Ok PNone; Raise (Scripted.ValueError "NOT_FOUND")] [])
              Scripted.the_client eq_refl) as (_ & _ & Hlog).
  exact Hlog.
Defined.

Lemma client_always_created_with_auto_auth_witness :
  EvConstruct true ∈ trace (get_client Runs.broken).2 ∧ true = true.
Proof.
  assert (EvConstruct true ∈ trace (get_client Runs.broken).2) as Hin
    by (apply list_elem_of_In; left; reflexivity).
  split; [exact Hin|].
  apply (client_always_created_with_auto_auth (H:=Scripted.collaborators)
           [Raise (Scripted.ValueError "no credentials"); Ok PNone]
           (get_client Runs.broken).2);
    [apply rtc_once, (step_get_client Runs.broken) | exact Hin].
Defined.

Lemma create_update_delete_verdict_witness :
  (Tests.test_create_and_delete_account TestRuns.update_fails).1 = Ok true.
Proof.
  destruct (create_update_delete_verdict TestRuns.update_fails
              (PStr "001X") (Raise TestRuns.NotFound) (Ok PNone)
              (TestRuns.mkLab TestRuns.configured [Raise TestRuns.NotFound; Ok PNone])
              (TestRuns.mkLab TestRuns.configured [Ok PNone])
              (TestRuns.mkLab TestRuns.configured [])
              eq_refl eq_refl eq_refl eq_refl I) as [Hverdict _].
  exact Hverdict.
Defined.

Lemma create_failure_ends_test_witness :
  (Tests.test_create_and_delete_account
     (TestRuns.tester PNone TestRuns.configured [Raise TestRuns.NotFound])).1
  = Ok false.
Proof.
  exact (f_equal fst
           (create_failure_ends_test
              (TestRuns.tester PNone TestRuns.configured [Raise TestRuns.NotFound])
              TestRuns.NotFound (TestRuns.mkLab TestRuns.configured [])
              eq_refl eq_refl)).
Defined.

Lemma tests_skipped_without_account_id_witness :
  (Tests.test_get_account_by_id TestRuns.update_fails).1 = Ok true ∧
  (Tests.test_get_related_records TestRuns.update_fails).1 = Ok true.
Proof.
  destruct (tests_skipped_without_account_id TestRuns.update_fails eq_refl)
    as [Hby_id Hrelated].
  split; [exact (f_equal fst Hby_id) | exact (f_equal fst Hrelated)].
Defined.

Lemma get_accounts_remembers_first_id_witness :
  Tests.test_account_id (Tests.self (Tests.test_get_accounts TestRuns.one_account).2)
  = PStr "001A".
Proof.
  destruct (get_accounts_remembers_first_id TestRuns.one_account
              (Ok (PList [PDict {[ "Id" := PStr "001A" ]}]))
              (TestRuns.mkLab TestRuns.configured []) eq_refl I)
    as (_ & _ & Hid).
  exact Hid.
Defined.

Lemma setup_verdict_witness :
  (Tests.setup (TestRuns.tester PNone TestRuns.configured [Ok (PDict ∅)])).1 = Ok true.
Proof.
  destruct (setup_verdict (TestRuns.tester PNone TestRuns.configured [Ok (PDict ∅)])
              (Ok (PDict ∅)) (TestRuns.mkLab TestRuns.configured []) eq_refl (λ _, I))
    as [Hverdict _].
  exact Hverdict.
Defined.

Lemma related_records_verdict_witness :
  (Tests.test_get_related_records TestRuns.no_opportunities).1 = Ok true.
Proof.
  destruct (related_records_verdict TestRuns.no_opportunities
              (Raise TestRuns.NotFound) (Ok (PList []))
              (TestRuns.mkLab TestRuns.configured [Ok (PList [])])
              (TestRuns.mkLab TestRuns.configured [])
              eq_refl eq_refl eq_refl eq_refl I) as [Hverdict _].
  exact Hverdict.
Defined.

Lemma suite_aborts_without_credentials_witness :
  (Tests.run_all_tests (TestRuns.tester PNone ∅ [])).1 = Ok false.
Proof.
  assert (Tests.env_truthy
            (Tests.environ_get "SALESFORCE_CLIENT_ID"
               (Tests.outside (TestRuns.tester PNone ∅ []))) &&
          Tests.env_truthy
            (Tests.environ_get "SALESFORCE_CLIENT_SECRET"
               (Tests.outside (TestRuns.tester PNone ∅ []))) = false) as Henv
    by (vm_compute; reflexivity).
  destruct (suite_aborts_without_credentials (TestRuns.tester PNone ∅ []) Henv)
    as [Hverdict _].
  exact Hverdict.
Defined.

Lemma search_test_verdict_witness :
  (Tests.test_search_accounts
     (TestRuns.tester PNone TestRuns.configured [Ok (PList [])])).1 = Ok true.
Proof.
  destruct (search_test_verdict
              (TestRuns.tester PNone TestRuns.configured [Ok (PList [])])
              (Ok (PList [])) (TestRuns.mkLab TestRuns.configured []) eq_refl I)
    as [Hverdict _].
  exact Hverdict.
Defined.

Lemma get_by_id_test_verdict_witness :
  (Tests.test_get_account_by_id TestRuns.no_opportunities).1 = Ok false.
Proof.
  destruct (get_by_id_test_verdict TestRuns.no_opportunities
              (Raise TestRuns.NotFound)
              (TestRuns.mkLab TestRuns.configured [Ok (PList [])])
              eq_refl eq_refl eq_refl)
    as [Hverdict _].
  exact Hverdict.
Defined.

Lemma run_tests_records_every_test_witness :
  ∃ results,
    (Tests.run_tests Tests.tests [] TestRuns.update_fails).1 = Ok results ∧
    results.*1 = [ "Get Accounts"; "Get Account by ID"; "Search Accounts";
                   "Create/Update/Delete Account"; "Get Related Records" ].
Proof.
  eexists. split; [reflexivity|].
  eapply (run_tests_records_every_test Tests.tests [] _ TestRuns.update_fails
            (Tests.run_tests Tests.tests [] TestRuns.update_fails).2).
  rewrite (surjective_pairing (Tests.run_tests _ _ _)). reflexivity.
Defined.

Lemma suite_verdict_witness :
  ∃ s1 results s2,
    Tests.setup (Tests.after_header TestRuns.all_green) = (Ok true, s1) ∧
    Tests.run_tests Tests.tests [] s1 = (Ok results, s2) ∧
    Forall (λ r, r.2 = true) results.
Proof.
  assert ((Tests.run_all_tests TestRuns.all_green).1 = Ok true) as Hverdict
    by (vm_compute; reflexivity).
  apply (suite_verdict TestRuns.all_green (Tests.run_all_tests TestRuns.all_green).2 true);
    [|exact eq_refl].
  rewrite <- Hverdict. apply surjective_pairing.
Defined.

Lemma exit_status_is_suite_verdict_witness :
  (Tests.main (H:=TestRuns.env) Tests.unit_mode TestRuns.unconfigured).1.1
  = Raise (Tests.SystemExit 1).
Proof.
  pose (tester := Tests.mkState (Tests.mkSelf (tt : @Tests.Object TestRuns.env) PNone)
                   (TestRuns.mkLab ∅ []) [Tests.Construct false]).
  exact (f_equal (λ r, r.1.1)
           (exit_status_is_suite_verdict (H:=TestRuns.env) Tests.unit_mode
              TestRuns.unconfigured
              (TestRuns.mkLab ∅ []) [Tests.Construct false]
              tester (Tests.run_all_tests tester).2 false
              eq_refl eq_refl eq_refl
              (surjective_pairing (Tests.run_all_tests tester)))).
Defined.

Lemma integration_mode_exits_zero_witness :
  Tests.main (H:=TestRuns.env) Tests.integration_mode (TestRuns.mkLab ∅ [])
  = (Raise (Tests.SystemExit 0), TestRuns.mkLab ∅ [], Tests.test_mcp_server_integration).
Proof.
  exact (integration_mode_exits_zero (H:=TestRuns.env) (TestRuns.mkLab ∅ []) eq_refl).
Defined.

Example scripted_get_accounts :
  (get_accounts Omitted Omitted (Scripted.start [Ok PNone; Ok (PList [PStr "a"])])).1
  = Ok (PList [PStr "a"]).
Proof. reflexivity. Qed.

Example crm_search :
  (search_accounts "Inc" (Given 5) (Crm.start Crm.org)).1
  = Ok (PList [PDict Crm.acme]).
Proof. vm_compute. reflexivity. Qed.

Example scripted_update_discards_result :
  (update_account "001A" ∅ (Scripted.start [Ok PNone; Ok (PBool false)])).1
  = Ok (PBool true).
Proof. reflexivity. Qed.

Example scripted_startup_interrupted :
  (main (Scripted.start [Raise Scripted.KeyboardInterrupt; Ok PNone])).1
  = Raise Scripted.KeyboardInterrupt.
Proof. reflexivity. Qed.

Example crm_missing_credentials :
  (get_accounts Omitted Omitted
     (Crm.start (Crm.mkRemote false false ∅ [] []))).1
  = Raise Crm.AuthError.
Proof. reflexivity. Qed.
